(** * Hotel booking services: room ledger, booking rule and context analyzer

    A shallow embedding of [booking_server.py] (the room ledger held in the
    global data frame [df], its listing endpoints and the booking, update and
    cancel operations) and of the rule tables of [hotel_mcp_sse_server.py]
    (the [_analyze_*] methods of the context analyzer), followed by the
    properties of the specification that concern them.

    Conventions of the embedding:
    - a Python [str] is a [string]; [lower], [in] and [len] are taken on
      8-bit characters, so the [\d] of the date pattern means an ASCII digit;
    - a Python [float] is a binary64 [float] of the kernel, so the arithmetic
      on prices is the arithmetic the interpreter performs;
    - the data frame is the list of its rows, in order; an endpoint that
      mutates it is a function from the server state to the new state and
      the outcome of the request. *)

From Stdlib Require Import ZArith List String Ascii Bool Lia ZifyBool.
From Stdlib Require Import Floats Uint63 DecimalString.
Import ListNotations.

Local Open Scope string_scope.
Local Open Scope Z_scope.

(** ** Python primitives *)

Module Py.

(** [c.lower()] on one character. *)
Definition lower_ascii (c : ascii) : ascii :=
  let n := nat_of_ascii c in
  if ((65 <=? n) && (n <=? 90))%nat then ascii_of_nat (n + 32) else c.

(** [s.lower()] on a text of ASCII characters, one character per cell of
    the string: the letters A to Z are folded and every other character is
    kept.  On other texts [str.lower] also folds letters outside ASCII and
    may change the number of characters; such texts are outside what this
    function represents. *)
Fixpoint lower (s : string) : string :=
  match s with
  | EmptyString => EmptyString
  | String c s' => String (lower_ascii c) (lower s')
  end.

(** [s.isascii()]: every character is below 128. *)
Fixpoint isascii (s : string) : bool :=
  match s with
  | EmptyString => true
  | String c s' => (nat_of_ascii c <? 128)%nat && isascii s'
  end.

(** [len(s)]. *)
Definition len (s : string) : Z := Z.of_nat (String.length s).

(** Truth value of a string: [bool(s)]. *)
Definition truthy (s : string) : bool :=
  match s with EmptyString => false | String _ _ => true end.

(** [a or b] on strings. *)
Definition or_ (a b : string) : string := if truthy a then a else b.

(** [w in s]: [w] occurs in [s] as a substring. *)
Fixpoint contains (w s : string) : bool :=
  String.prefix w s
  || match s with
     | EmptyString => false
     | String _ s' => contains w s'
     end.

(** [any(word in s for word in words)]. *)
Definition any_in (words : list string) (s : string) : bool :=
  existsb (fun word => contains word s) words.

(** [str(n)] for an [int]. *)
Definition str_int (n : Z) : string := NilZero.string_of_int (Z.to_int n).

(** [float(n)] for an [int] below 2^63 in absolute value. *)
Definition float_of_int (n : Z) : float :=
  if n <? 0 then PrimFloat.opp (PrimFloat.of_uint63 (Uint63.of_Z (- n)))
  else PrimFloat.of_uint63 (Uint63.of_Z n).

(** [len(s.split(','))]: one more than the number of commas. *)
Fixpoint count_commas (s : string) : Z :=
  match s with
  | EmptyString => 0
  | String c s' => (if Ascii.eqb c "," then 1 else 0) + count_commas s'
  end.

Definition split_len (s : string) : Z := count_commas s + 1.

(** Values held by the dictionaries the endpoints return. *)
Inductive value : Type :=
| VStr (s : string)
| VInt (n : Z)
| VFloat (f : float)
| VBool (b : bool).

(** A [dict] with string keys, in insertion order. *)
Definition dict : Type := list (string * value).

(** [d[k]]. *)
Fixpoint getitem (k : string) (d : dict) : option value :=
  match d with
  | [] => None
  | (k', v) :: d' => if String.eqb k' k then Some v else getitem k d'
  end.

(** [d[k] = v]: overwrites in place, or appends a new key. *)
Fixpoint setitem (k : string) (v : value) (d : dict) : dict :=
  match d with
  | [] => [(k, v)]
  | (k', v') :: d' =>
      if String.eqb k' k then (k, v) :: d' else (k', v') :: setitem k v d'
  end.

(** [pd.isna(v)] on a scalar. *)
Definition isna (v : value) : bool :=
  match v with
  | VFloat f => PrimFloat.is_nan f
  | _ => false
  end.

(** [float(v)]; [None] stands for the [ValueError] of a string that is not
    a numeral.  The ledger keeps its prices in a float column, so the
    endpoints only ever apply it to a [VFloat]. *)
Definition to_float (v : value) : option float :=
  match v with
  | VFloat f => Some f
  | VInt n => Some (float_of_int n)
  | VBool b => Some (if b then 1%float else 0%float)
  | VStr _ => None
  end.

(** Outcome of a request. *)
Inductive exn : Type := ValueError.

Inductive outcome (A : Type) : Type :=
| Return (a : A)
| HTTPException (status : Z) (detail : string)
| Uncaught (e : exn).

Arguments Return {A} a.
Arguments HTTPException {A} status detail.
Arguments Uncaught {A} e.

(** Applies a fallible function to every element; fails at the first
    failure. *)
Fixpoint traverse {A B : Type} (f : A -> option B) (l : list A)
  : option (list B) :=
  match l with
  | [] => Some []
  | x :: l' =>
      match f x with
      | None => None
      | Some y =>
          match traverse f l' with
          | None => None
          | Some ys => Some (y :: ys)
          end
      end
  end.

End Py.

(** ** [datetime]: parsing with the format [%Y-%m-%d], ordinals, comparison *)

Module Datetime.

(** A [datetime] built by [strptime] from a date-only format: the time of
    day is midnight. *)
Record datetime : Type := mkDate { year : Z; month : Z; day : Z }.

Definition chars : Type := list ascii.

Definition is_digit (c : ascii) : bool :=
  let n := nat_of_ascii c in ((48 <=? n) && (n <=? 57))%nat.

Definition digit (c : ascii) : Z := Z.of_nat (nat_of_ascii c) - 48.

Definition in_range (lo hi : Z) (c : ascii) : bool :=
  is_digit c && (lo <=? digit c) && (digit c <=? hi).

(** Each directive is a regular expression; a matcher returns the ways it
    can match a prefix of the input, in the order the engine tries them,
    each with the value read and the rest of the input. *)
Definition matcher (A : Type) : Type := chars -> list (A * chars).

(** [%Y] is [\d\d\d\d]. *)
Definition re_Y : matcher Z := fun l =>
  match l with
  | a :: b :: c :: d :: rest =>
      if is_digit a && is_digit b && is_digit c && is_digit d
      then [(1000 * digit a + 100 * digit b + 10 * digit c + digit d, rest)]
      else []
  | _ => []
  end.

(** One alternative made of two characters. *)
Definition two (p1 p2 : ascii -> bool) (v : ascii -> ascii -> Z)
  : matcher Z := fun l =>
  match l with
  | a :: b :: rest => if p1 a && p2 b then [(v a b, rest)] else []
  | _ => []
  end.

(** One alternative made of one character. *)
Definition one (p : ascii -> bool) : matcher Z := fun l =>
  match l with
  | a :: rest => if p a then [(digit a, rest)] else []
  | _ => []
  end.

Definition alt (ms : list (matcher Z)) : matcher Z := fun l =>
  flat_map (fun m => m l) ms.

Definition num2 (a b : ascii) : Z := 10 * digit a + digit b.

(** [%m] is [1[0-2]|0[1-9]|[1-9]]. *)
Definition re_m : matcher Z :=
  alt [ two (in_range 1 1) (in_range 0 2) num2;
        two (in_range 0 0) (in_range 1 9) num2;
        one (in_range 1 9) ].

(** [%d] is [3[0-1]|[1-2]\d|0[1-9]|[1-9]| [1-9]]. *)
Definition re_d : matcher Z :=
  alt [ two (in_range 3 3) (in_range 0 1) num2;
        two (in_range 1 2) is_digit num2;
        two (in_range 0 0) (in_range 1 9) num2;
        one (in_range 1 9);
        two (Ascii.eqb " ") (in_range 1 9) (fun _ b => digit b) ].

(** The literal [-] of the format. *)
Definition re_dash : matcher unit := fun l =>
  match l with
  | a :: rest => if Ascii.eqb a "-" then [(tt, rest)] else []
  | [] => []
  end.

Definition bind {A B : Type} (m : matcher A) (k : A -> matcher B)
  : matcher B := fun l =>
  flat_map (fun '(a, rest) => k a rest) (m l).

(** The compiled pattern of [%Y-%m-%d]. *)
Definition format_regex : matcher (Z * Z * Z) :=
  bind re_Y (fun y =>
  bind re_dash (fun _ =>
  bind re_m (fun m =>
  bind re_dash (fun _ =>
  bind re_d (fun d rest => [((y, m, d), rest)]))))).

Definition _is_leap (y : Z) : bool :=
  (y mod 4 =? 0) && (negb (y mod 100 =? 0) || (y mod 400 =? 0)).

Definition _DAYS_IN_MONTH (m : Z) : Z :=
  match m with
  | 1 => 31 | 2 => 28 | 3 => 31 | 4 => 30 | 5 => 31 | 6 => 30
  | 7 => 31 | 8 => 31 | 9 => 30 | 10 => 31 | 11 => 30 | 12 => 31
  | _ => -1
  end.

Definition _DAYS_BEFORE_MONTH (m : Z) : Z :=
  match m with
  | 1 => 0 | 2 => 31 | 3 => 59 | 4 => 90 | 5 => 120 | 6 => 151
  | 7 => 181 | 8 => 212 | 9 => 243 | 10 => 273 | 11 => 304 | 12 => 334
  | _ => -1
  end.

Definition _days_in_month (y m : Z) : Z :=
  if (m =? 2) && _is_leap y then 29 else _DAYS_IN_MONTH m.

Definition _days_before_year (y : Z) : Z :=
  let y' := y - 1 in y' * 365 + y' / 4 - y' / 100 + y' / 400.

Definition _days_before_month (y m : Z) : Z :=
  _DAYS_BEFORE_MONTH m + (if (2 <? m) && _is_leap y then 1 else 0).

Definition _ymd2ord (y m d : Z) : Z :=
  _days_before_year y + _days_before_month y m + d.

Definition toordinal (t : datetime) : Z :=
  _ymd2ord (year t) (month t) (day t).

(** The constructor's range checks ([MINYEAR] is 1; four digits keep the
    year below [MAXYEAR]). *)
Definition valid (y m d : Z) : bool :=
  (1 <=? y) && (y <=? 9999) && (1 <=? m) && (m <=? 12)
  && (1 <=? d) && (d <=? _days_in_month y m).

(** [datetime.strptime(s, '%Y-%m-%d')]; [None] is its [ValueError]: the
    pattern does not match, the first match leaves unconverted data, or the
    day is out of range for the month. *)
Definition strptime (s : string) : option datetime :=
  match format_regex (list_ascii_of_string s) with
  | [] => None
  | ((y, m, d), rest) :: _ =>
      match rest with
      | [] => if valid y m d then Some (mkDate y m d) else None
      | _ :: _ => None
      end
  end.

(** [a <= b]: the comparison of the field tuples. *)
Definition le (a b : datetime) : bool :=
  (year a <? year b)
  || ((year a =? year b)
      && ((month a <? month b)
          || ((month a =? month b) && (day a <=? day b)))).

(** [(a - b).days]. *)
Definition days_between (a b : datetime) : Z := toordinal a - toordinal b.

End Datetime.

(** ** [booking_server.py]: the room ledger and its endpoints *)

Module BookingServer.
Import Py.

(** One row of [df], by the names of [COLUMN_ORDER]. *)
Record Room : Type := mkRoom {
  Room_Number : Z;
  Room_Type : string;
  Availability : string;
  Name_of_Guest : string;
  Number_of_People : string;
  Extra_Facility : string;
  Check_in_Date : string;
  Check_out_Date : string;
  Price : float;
  reserved_for_upselling : string
}.

(** The process state: the data frame in memory and the rows last written
    to [CSV_PATH]. *)
Record Server : Type := mkServer { df : list Room; csv : list Room }.

(** [_save_csv()]. *)
Definition _save_csv (s : Server) : Server :=
  {| df := df s; csv := df s |}.

Record BookingRequest : Type := mkBookingRequest {
  guest_id : Z;
  room_number : Z;
  check_in_date : string;
  check_out_date : string;
  number_of_adults : Z;
  purpose_of_visit : string
}.

Record BookingResponse : Type := mkBookingResponse {
  booking_id : string;
  resp_guest_id : Z;
  resp_room_number : Z;
  resp_room_type : string;
  resp_check_in_date : string;
  resp_check_out_date : string;
  resp_number_of_adults : Z;
  resp_purpose_of_visit : string;
  total_cost : float;
  booking_status : string
}.

(** [number_of_people: Union[int, str]]. *)
Inductive int_or_str : Type :=
| AnInt (n : Z)
| AStr (s : string).

Definition str_ (v : int_or_str) : string :=
  match v with
  | AnInt n => str_int n
  | AStr s => s
  end.

Record RoomUpdate : Type := mkRoomUpdate {
  upd_room_number : Z;
  upd_availability : string;
  upd_guest_name : string;
  upd_number_of_people : int_or_str;
  upd_check_in_date : string;
  upd_check_out_date : string;
  upd_extra_facility : string
}.

(** [room.to_dict()]. *)
Definition to_dict (r : Room) : dict :=
  [ ("Room Number", VInt (Room_Number r));
    ("Room Type", VStr (Room_Type r));
    ("Availability", VStr (Availability r));
    ("Name of Guest", VStr (Name_of_Guest r));
    ("Number of People", VStr (Number_of_People r));
    ("Extra Facility", VStr (Extra_Facility r));
    ("Check-in Date", VStr (Check_in_Date r));
    ("Check-out Date", VStr (Check_out_Date r));
    ("Price", VFloat (Price r));
    ("reserved for upselling/season", VStr (reserved_for_upselling r)) ].

(** The body of the inner loop of [_json_ready]: the cleaned value of one
    item. *)
Definition clean_item (kv : string * value) : option (string * value) :=
  let '(k, v) := kv in
  if isna v then Some (k, VStr "")
  else if String.eqb k "Price" then
    match to_float v with
    | Some f => Some (k, VFloat f)
    | None => None
    end
  else
    match v with
    | VInt n => Some (k, VInt n)
    | VBool b => Some (k, VInt (Z.b2z b))
    | VFloat f => Some (k, VFloat f)
    | VStr s => Some (k, VStr s)
    end.

(** [_json_ready(records)]; [None] when a [float()] raises. *)
Definition _json_ready (records : list dict) : option (list dict) :=
  traverse (traverse clean_item) records.

(** The rows selected by [df[df["Room Number"] == n]]. *)
Definition rows_of (n : Z) (rows : list Room) : list Room :=
  filter (fun r => Room_Number r =? n) rows.

(** [df.loc[df["Room Number"] == n, columns] = values], with the
    assignment to the named columns given as a function on rows. *)
Definition assign (n : Z) (set : Room -> Room) (rows : list Room)
  : list Room :=
  map (fun r => if Room_Number r =? n then set r else r) rows.

Definition is_available (r : Room) : bool :=
  String.eqb (lower (Availability r)) "available".

Definition returning (records : option (list dict)) : outcome (list dict) :=
  match records with
  | Some rows => Return rows
  | None => Uncaught ValueError
  end.

(** GET [/rooms/available]. *)
Definition available_rooms (s : Server) : outcome (list dict) :=
  let rooms :=
    filter (fun r => is_available r
                     && String.eqb (lower (reserved_for_upselling r)) "no")
           (df s) in
  returning (_json_ready (map to_dict rooms)).

Definition bad_dates {A : Type} : outcome A :=
  HTTPException 400 "Invalid date format. Use YYYY-MM-DD".

(** One iteration of the loop of [available_rooms_for_dates]: what the row
    appends to [available_rooms]. *)
Definition for_dates_row (check_in_date : Datetime.datetime) (room : Room)
  : list dict :=
  if String.eqb (lower (reserved_for_upselling room)) "yes" then []
  else if is_available room then [to_dict room]
  else if truthy (Check_out_Date room) then
    match Datetime.strptime (Check_out_Date room) with
    | Some room_checkout =>
        if Datetime.le room_checkout check_in_date then [to_dict room]
        else []
    | None => []
    end
  else [].

(** GET [/rooms/available-for-dates].  A [ValueError] from either
    [strptime] or from [_json_ready] is caught by the handler of the
    enclosing [try]. *)
Definition available_rooms_for_dates (check_in check_out : string)
  (s : Server) : outcome (list dict) :=
  match Datetime.strptime check_in with
  | None => bad_dates
  | Some check_in_date =>
      match Datetime.strptime check_out with
      | None => bad_dates
      | Some check_out_date =>
          let available_rooms :=
            flat_map (for_dates_row check_in_date) (df s) in
          match _json_ready available_rooms with
          | Some rows => Return rows
          | None => bad_dates
          end
      end
  end.

(** The markup applied to a row's dictionary, shared by the two upselling
    listings. *)
Definition with_markup (markup_percentage : float) (room : Room) : dict :=
  let room_dict := to_dict room in
  if String.eqb (lower (reserved_for_upselling room)) "yes" then
    let original_price := Price room in
    let markup_price :=
      (original_price * (1 + markup_percentage / 100))%float in
    setitem "markup_percentage" (VFloat markup_percentage)
      (setitem "is_premium_upselling" (VBool true)
        (setitem "original_price" (VFloat original_price)
          (setitem "Price" (VFloat markup_price) room_dict)))
  else
    setitem "markup_percentage" (VInt 0)
      (setitem "original_price" (VFloat (Price room))
        (setitem "is_premium_upselling" (VBool false) room_dict)).

(** GET [/rooms/available-with-upselling]. *)
Definition available_rooms_with_upselling (markup_percentage : float)
  (s : Server) : outcome (list dict) :=
  let available_rooms := filter is_available (df s) in
  returning (_json_ready (map (with_markup markup_percentage)
                              available_rooms)).

(** One iteration of the loop of
    [available_rooms_for_dates_with_upselling]. *)
Definition for_dates_upselling_row (check_in_date : Datetime.datetime)
  (markup_percentage : float) (room : Room) : list dict :=
  if is_available room then [with_markup markup_percentage room]
  else if truthy (Check_out_Date room) then
    match Datetime.strptime (Check_out_Date room) with
    | Some room_checkout =>
        if Datetime.le room_checkout check_in_date
        then [with_markup markup_percentage room]
        else []
    | None => []
    end
  else [].

(** GET [/rooms/available-for-dates-with-upselling]. *)
Definition available_rooms_for_dates_with_upselling
  (check_in check_out : string) (markup_percentage : float) (s : Server)
  : outcome (list dict) :=
  match Datetime.strptime check_in with
  | None => bad_dates
  | Some check_in_date =>
      match Datetime.strptime check_out with
      | None => bad_dates
      | Some check_out_date =>
          let available_rooms :=
            flat_map (for_dates_upselling_row check_in_date
                                              markup_percentage) (df s) in
          match _json_ready available_rooms with
          | Some rows => Return rows
          | None => bad_dates
          end
      end
  end.

Definition not_found {A : Type} (n : Z) : outcome A :=
  HTTPException 404 ("Room " ++ str_int n ++ " not found").

(** The columns written by [create_booking]. *)
Definition book (booking : BookingRequest) (r : Room) : Room :=
  {| Room_Number := Room_Number r;
     Room_Type := Room_Type r;
     Availability := "Booked";
     Name_of_Guest := "Guest_" ++ str_int (guest_id booking);
     Number_of_People := Number_of_People r;
     Extra_Facility := Extra_Facility r;
     Check_in_Date := check_in_date booking;
     Check_out_Date := check_out_date booking;
     Price := Price r;
     reserved_for_upselling := reserved_for_upselling r |}.

(** POST [/bookings/create].  [now] is
    [datetime.now().strftime('%Y%m%d%H%M')].  The data frame is assigned
    before the dates are parsed, so a [ValueError] from [strptime] leaves
    the room booked in memory and the file unwritten. *)
Definition create_booking (now : string) (booking : BookingRequest)
  (s : Server) : Server * outcome BookingResponse :=
  match rows_of (room_number booking) (df s) with
  | [] => (s, not_found (room_number booking))
  | row0 :: _ =>
      if negb (is_available row0)
      then (s, HTTPException 400 "Room is not available")
      else
        let s1 := {| df := assign (room_number booking) (book booking)
                                  (df s);
                     csv := csv s |} in
        match Datetime.strptime (check_out_date booking),
              Datetime.strptime (check_in_date booking) with
        | Some check_out, Some check_in =>
            let nights := Datetime.days_between check_out check_in in
            let cost := (Price row0 * float_of_int nights)%float in
            let booking_id :=
              "BK" ++ str_int (guest_id booking)
                   ++ str_int (room_number booking) ++ now in
            (_save_csv s1,
             Return {| booking_id := booking_id;
                       resp_guest_id := guest_id booking;
                       resp_room_number := room_number booking;
                       resp_room_type := Room_Type row0;
                       resp_check_in_date := check_in_date booking;
                       resp_check_out_date := check_out_date booking;
                       resp_number_of_adults := number_of_adults booking;
                       resp_purpose_of_visit := purpose_of_visit booking;
                       total_cost := cost;
                       booking_status := "Confirmed" |})
        | _, _ => (s1, Uncaught ValueError)
        end
  end.

(** The columns written by [update_guest]: each value is the payload's, or
    the first matching row's when the payload's is empty. *)
Definition update (payload : RoomUpdate) (row0 r : Room) : Room :=
  {| Room_Number := Room_Number r;
     Room_Type := Room_Type r;
     Availability := or_ (upd_availability payload) (Availability row0);
     Name_of_Guest := or_ (upd_guest_name payload) (Name_of_Guest row0);
     Number_of_People :=
       or_ (str_ (upd_number_of_people payload)) (Number_of_People row0);
     Extra_Facility :=
       or_ (upd_extra_facility payload) (Extra_Facility row0);
     Check_in_Date := or_ (upd_check_in_date payload) (Check_in_Date row0);
     Check_out_Date :=
       or_ (upd_check_out_date payload) (Check_out_Date row0);
     Price := Price r;
     reserved_for_upselling := reserved_for_upselling r |}.

(** PUT [/rooms/{room_number}/update-guest-info]. *)
Definition update_guest (room_number : Z) (payload : RoomUpdate)
  (s : Server) : Server * outcome string :=
  match rows_of room_number (df s) with
  | [] => (s, not_found room_number)
  | row0 :: _ =>
      let s1 := {| df := assign room_number (update payload row0) (df s);
                   csv := csv s |} in
      (_save_csv s1,
       Return ("Room " ++ str_int room_number ++ " updated"))
  end.

(** PUT [/rooms/{room_number}/status]. *)
Definition update_status (room_number : Z) (payload : RoomUpdate)
  (s : Server) : Server * outcome string :=
  update_guest room_number payload s.

(** The columns written by [cancel_booking]. *)
Definition clear (r : Room) : Room :=
  {| Room_Number := Room_Number r;
     Room_Type := Room_Type r;
     Availability := "Available";
     Name_of_Guest := "";
     Number_of_People := "";
     Extra_Facility := "";
     Check_in_Date := "";
     Check_out_Date := "";
     Price := Price r;
     reserved_for_upselling := reserved_for_upselling r |}.

(** DELETE [/bookings/cancel/{room_number}]. *)
Definition cancel_booking (room_number : Z) (s : Server)
  : Server * outcome string :=
  match rows_of room_number (df s) with
  | [] => (s, not_found room_number)
  | _ :: _ =>
      let s1 := {| df := assign room_number clear (df s);
                   csv := csv s |} in
      (_save_csv s1,
       Return ("Booking cancelled for room " ++ str_int room_number))
  end.

(** GET [/bookings/occupied-rooms]. *)
Definition occupied_rooms (s : Server) : outcome (list dict) :=
  let occupied :=
    filter (fun r => String.eqb (lower (Availability r)) "booked") (df s) in
  returning (_json_ready (map to_dict occupied)).

End BookingServer.

(** ** [hotel_mcp_sse_server.py]: the rule tables of the context analyzer *)

Module ContextAnalyzer.
Import Py.

(** The fields of [guest_data] read by the analysis; a missing key reads
    as its default. *)
Record GuestData : Type := mkGuestData {
  room_type : string;
  special_requests : string;
  amenities_used : string;
  profession : string;
  extra_activities_booked : string;
  loyalty_member : string;
  payment_method : string;
  total_bill : float;
  feedback_and_issues : string
}.

Record RoomPreferences : Type := mkRoomPreferences {
  room_category : string;
  space_preference : string;
  privacy_level : string;
  luxury_inclination : string;
  special_needs : list string
}.

Record Lifestyle : Type := mkLifestyle {
  activity_level : string;
  wellness_focus : string;
  business_orientation : string;
  social_preference : string;
  interests : list string
}.

Record Satisfaction : Type := mkSatisfaction {
  overall_sentiment : string;
  service_sensitivity : string;
  complaint_patterns : list string;
  praise_patterns : list string;
  attention_to_detail : string
}.

Record LoyaltyBehavior : Type := mkLoyaltyBehavior {
  loyalty_tier : string;
  spending_category : string;
  payment_behavior : string;
  value_perception : string;
  retention_probability : string
}.

Record ServicePatterns : Type := mkServicePatterns {
  service_usage_level : string;
  service_categories : list string;
  engagement_style : string;
  service_expectations : string
}.

Record Personality : Type := mkPersonality {
  communication_style : string;
  detail_orientation : string;
  pers_social_preference : string;
  assertiveness : string
}.

(** Assignments to one key of a dictionary. *)
Definition set_activity_level (v : string) (l : Lifestyle) : Lifestyle :=
  mkLifestyle v (wellness_focus l) (business_orientation l)
              (social_preference l) (interests l).

Definition set_wellness_focus (v : string) (l : Lifestyle) : Lifestyle :=
  mkLifestyle (activity_level l) v (business_orientation l)
              (social_preference l) (interests l).

Definition set_business_orientation (v : string) (l : Lifestyle)
  : Lifestyle :=
  mkLifestyle (activity_level l) (wellness_focus l) v
              (social_preference l) (interests l).

Definition set_social_preference (v : string) (l : Lifestyle) : Lifestyle :=
  mkLifestyle (activity_level l) (wellness_focus l)
              (business_orientation l) v (interests l).

(** [lifestyle["interests"].extend(vs)]. *)
Definition extend_interests (vs : list string) (l : Lifestyle) : Lifestyle :=
  mkLifestyle (activity_level l) (wellness_focus l)
              (business_orientation l) (social_preference l)
              (interests l ++ vs)%list.

(** A guarded block: [if c: body]. *)
Definition when {A : Type} (c : bool) (body : A -> A) (x : A) : A :=
  if c then body x else x.

Definition _analyze_room_preferences (room_type special_requests : string)
  : RoomPreferences :=
  let need (words : list string) (tag : string) (needs : list string) :=
    if any_in words special_requests then (needs ++ [tag])%list
    else needs in
  let needs :=
    if truthy special_requests then
      need ["early"; "late"; "check"] "flexible_timing"
        (need ["accessible"; "disability"; "wheelchair"]
              "accessibility_needs"
          (need ["floor"; "high"; "top"] "floor_preference"
            (need ["view"; "window"; "balcony"] "view_important"
              (need ["quiet"; "silent"; "peaceful"] "noise_sensitive"
                    []))))
    else [] in
  if any_in ["suite"; "presidential"; "executive"] room_type then
    mkRoomPreferences "luxury" "spacious" "standard" "high" needs
  else if any_in ["deluxe"; "premium"; "superior"] room_type then
    mkRoomPreferences "premium" "moderate" "standard" "moderate-high" needs
  else
    mkRoomPreferences "standard" "moderate" "standard" "moderate" needs.

Definition _analyze_lifestyle
  (profession amenities_used extra_activities : string) : Lifestyle :=
  let lifestyle := mkLifestyle "moderate" "low" "low" "moderate" [] in
  (* Profession-based analysis *)
  let lifestyle :=
    if any_in ["executive"; "manager"; "director"; "ceo"; "business"]
              profession then
      extend_interests
        ["business_facilities"; "executive_services"; "networking"]
        (set_business_orientation "high" lifestyle)
    else if any_in ["doctor"; "engineer"; "consultant"; "lawyer"]
                   profession then
      extend_interests ["professional_services"; "quiet_environment"]
        (set_business_orientation "moderate-high" lifestyle)
    else if any_in ["teacher"; "nurse"; "social"] profession then
      extend_interests ["community_activities"; "social_spaces"]
        (set_social_preference "high" lifestyle)
    else lifestyle in
  (* Amenities analysis *)
  let lifestyle :=
    when (truthy amenities_used) (fun lifestyle =>
      let lifestyle :=
        when (any_in ["spa"; "massage"; "wellness"; "gym"; "fitness"]
                     amenities_used)
          (fun l => extend_interests ["wellness"; "fitness"; "relaxation"]
                      (set_activity_level "high"
                        (set_wellness_focus "high" l)))
          lifestyle in
      let lifestyle :=
        when (any_in ["pool"; "swimming"] amenities_used)
          (fun l => extend_interests ["recreational_swimming"]
                      (set_activity_level "moderate-high" l))
          lifestyle in
      when (any_in ["business"; "meeting"; "conference"] amenities_used)
        (fun l => extend_interests ["business_facilities"; "meeting_spaces"]
                    (set_business_orientation "high" l))
        lifestyle)
      lifestyle in
  (* Activities analysis *)
  when (truthy extra_activities) (fun lifestyle =>
    let lifestyle :=
      when (any_in ["tour"; "sightseeing"; "cultural"] extra_activities)
        (fun l => extend_interests ["cultural_experiences"; "local_tours"]
                    (set_social_preference "high" l))
        lifestyle in
    let lifestyle :=
      when (any_in ["adventure"; "sports"; "hiking"] extra_activities)
        (fun l => extend_interests ["adventure_sports"; "outdoor_activities"]
                    (set_activity_level "high" l))
        lifestyle in
    when (any_in ["dining"; "restaurant"; "food"] extra_activities)
      (extend_interests ["culinary_experiences"])
      lifestyle)
    lifestyle.

Definition _analyze_satisfaction (feedback special_requests : string)
  : Satisfaction :=
  let overall_sentiment :=
    if truthy feedback then
      if any_in ["excellent"; "amazing"; "perfect"; "loved"; "wonderful"]
                feedback then "very_positive"
      else if any_in ["good"; "nice"; "pleasant"; "satisfied"] feedback
      then "positive"
      else if any_in ["terrible"; "awful"; "horrible"; "worst"] feedback
      then "very_negative"
      else if any_in ["bad"; "poor"; "disappointed"; "unsatisfied"] feedback
      then "negative"
      else "neutral"
    else "neutral" in
  let service_sensitivity :=
    if truthy feedback
       && any_in ["staff"; "service"; "attitude"; "helpful"] feedback
    then "high" else "moderate" in
  let complaint (words : list string) (tag : string)
                (patterns : list string) :=
    if any_in words feedback then (patterns ++ [tag])%list else patterns in
  let complaint_patterns :=
    if truthy feedback then
      complaint ["slow"; "wait"; "delay"] "service_speed_issues"
        (complaint ["dirty"; "clean"; "hygiene"] "cleanliness_issues"
          (complaint ["noise"; "loud"; "disturbing"] "noise_issues" []))
    else [] in
  (* Special requests indicate attention to detail *)
  let attention_to_detail :=
    if truthy special_requests && (20 <? len special_requests)
    then "high" else "moderate" in
  mkSatisfaction overall_sentiment service_sensitivity complaint_patterns
                 [] attention_to_detail.

Definition _analyze_loyalty_behavior (loyalty_member : string)
  (total_bill : float) (payment_method : string) : LoyaltyBehavior :=
  let '(spending_category, value_perception) :=
    if (20000 <? total_bill)%float then ("high", "high")
    else if (10000 <? total_bill)%float then ("moderate-high", "moderate")
    else if (total_bill <? 3000)%float then ("budget", "price_sensitive")
    else ("moderate", "moderate") in
  let retention_probability :=
    if existsb (String.eqb loyalty_member) ["Gold"; "Platinum"; "Diamond"]
    then "high"
    else if existsb (String.eqb loyalty_member) ["Silver"; "Bronze"]
    then "moderate-high"
    else if String.eqb loyalty_member "New" then "opportunity"
    else "moderate" in
  let payment_behavior :=
    if contains "credit" (lower payment_method) then "convenient"
    else if contains "cash" (lower payment_method) then "traditional"
    else "standard" in
  mkLoyaltyBehavior loyalty_member spending_category payment_behavior
                    value_perception retention_probability.

Definition _analyze_service_patterns
  (amenities_used extra_activities special_requests : string)
  : ServicePatterns :=
  let category (words : list string) (tag : string)
               (categories : list string) :=
    if any_in words amenities_used then (categories ++ [tag])%list
    else categories in
  let '(service_count, categories) :=
    if truthy amenities_used then
      (split_len amenities_used,
       category ["dining"; "restaurant"] "dining"
         (category ["business"; "meeting"] "business"
           (category ["spa"; "massage"; "wellness"] "wellness" [])))
    else (0, []) in
  let '(service_count, categories) :=
    if truthy extra_activities then
      (service_count + split_len extra_activities,
       (categories ++ ["experiential"])%list)
    else (service_count, categories) in
  let '(service_count, service_expectations) :=
    if truthy special_requests then (service_count + 1, "detailed")
    else (service_count, "standard") in
  if 5 <? service_count then
    mkServicePatterns "high" categories "active" service_expectations
  else if 2 <? service_count then
    mkServicePatterns "moderate-high" categories "moderate"
                      service_expectations
  else
    mkServicePatterns "moderate" categories "moderate" service_expectations.

Definition _analyze_personality_indicators
  (special_requests feedback profession : string) : Personality :=
  (* Detail orientation from special requests *)
  let detail_orientation :=
    if truthy special_requests && (30 <? len special_requests) then "high"
    else if truthy special_requests && (10 <? len special_requests)
    then "moderate-high"
    else "moderate" in
  (* Communication style from feedback *)
  let communication_style :=
    if truthy feedback then
      if any_in ["please"; "thank"; "appreciate"] feedback then "polite"
      else if 100 <? len feedback then "expressive"
      else "standard"
    else "standard" in
  let assertiveness :=
    if truthy feedback
       && any_in ["must"; "should"; "need"; "require"] feedback
    then "high" else "moderate" in
  mkPersonality communication_style detail_orientation "moderate"
                assertiveness.

Record Analysis : Type := mkAnalysis {
  room_preferences : RoomPreferences;
  lifestyle_profile : Lifestyle;
  satisfaction_insights : Satisfaction;
  loyalty_behavior : LoyaltyBehavior;
  service_patterns : ServicePatterns;
  personality_indicators : Personality
}.

Definition _perform_deep_context_analysis (guest_data : GuestData)
  : Analysis :=
  let room_type := lower (room_type guest_data) in
  let special_requests := lower (special_requests guest_data) in
  let amenities_used := lower (amenities_used guest_data) in
  let profession := lower (profession guest_data) in
  let extra_activities := lower (extra_activities_booked guest_data) in
  let loyalty_member := loyalty_member guest_data in
  let payment_method := lower (payment_method guest_data) in
  let total_bill := total_bill guest_data in
  let feedback := lower (feedback_and_issues guest_data) in
  {| room_preferences :=
       _analyze_room_preferences room_type special_requests;
     lifestyle_profile :=
       _analyze_lifestyle profession amenities_used extra_activities;
     satisfaction_insights :=
       _analyze_satisfaction feedback special_requests;
     loyalty_behavior :=
       _analyze_loyalty_behavior loyalty_member total_bill payment_method;
     service_patterns :=
       _analyze_service_patterns amenities_used extra_activities
                                 special_requests;
     personality_indicators :=
       _analyze_personality_indicators special_requests feedback
                                       profession |}.

End ContextAnalyzer.

(** ** Vocabulary of the properties *)

Module Ledger.
Import Py BookingServer.

(** A cleaned float: [_json_ready] blanks a NaN. *)
Definition clean_float (f : float) : value :=
  if PrimFloat.is_nan f then VStr "" else VFloat f.

(** The record [_json_ready] makes of a row. *)
Definition json_row (r : Room) : dict :=
  [ ("Room Number", VInt (Room_Number r));
    ("Room Type", VStr (Room_Type r));
    ("Availability", VStr (Availability r));
    ("Name of Guest", VStr (Name_of_Guest r));
    ("Number of People", VStr (Number_of_People r));
    ("Extra Facility", VStr (Extra_Facility r));
    ("Check-in Date", VStr (Check_in_Date r));
    ("Check-out Date", VStr (Check_out_Date r));
    ("Price", clean_float (Price r));
    ("reserved for upselling/season", VStr (reserved_for_upselling r)) ].

Definition is_reserved (r : Room) : bool :=
  String.eqb (lower (reserved_for_upselling r)) "yes".

(** The record [_json_ready] makes of a row with its markup. *)
Definition json_markup (markup_percentage : float) (r : Room) : dict :=
  if is_reserved r then
    [ ("Room Number", VInt (Room_Number r));
      ("Room Type", VStr (Room_Type r));
      ("Availability", VStr (Availability r));
      ("Name of Guest", VStr (Name_of_Guest r));
      ("Number of People", VStr (Number_of_People r));
      ("Extra Facility", VStr (Extra_Facility r));
      ("Check-in Date", VStr (Check_in_Date r));
      ("Check-out Date", VStr (Check_out_Date r));
      ("Price", clean_float (Price r * (1 + markup_percentage / 100))%float);
      ("reserved for upselling/season", VStr (reserved_for_upselling r));
      ("original_price", clean_float (Price r));
      ("is_premium_upselling", VInt 1);
      ("markup_percentage", clean_float markup_percentage) ]
  else
    [ ("Room Number", VInt (Room_Number r));
      ("Room Type", VStr (Room_Type r));
      ("Availability", VStr (Availability r));
      ("Name of Guest", VStr (Name_of_Guest r));
      ("Number of People", VStr (Number_of_People r));
      ("Extra Facility", VStr (Extra_Facility r));
      ("Check-in Date", VStr (Check_in_Date r));
      ("Check-out Date", VStr (Check_out_Date r));
      ("Price", clean_float (Price r));
      ("reserved for upselling/season", VStr (reserved_for_upselling r));
      ("is_premium_upselling", VInt 0);
      ("original_price", clean_float (Price r));
      ("markup_percentage", VInt 0) ].

(** The rows of the regular listing: available and not held back for
    upselling. *)
Definition regular (r : Room) : bool :=
  is_available r && String.eqb (lower (reserved_for_upselling r)) "no".

(** A listing contains room [n]. *)
Definition lists_room (n : Z) (rows : list dict) : Prop :=
  exists d, In d rows /\ getitem "Room Number" d = Some (VInt n).

(** A listing contains room [n] with its guest and date fields empty. *)
Definition lists_cleared (n : Z) (rows : list dict) : Prop :=
  exists d, In d rows
    /\ getitem "Room Number" d = Some (VInt n)
    /\ getitem "Name of Guest" d = Some (VStr "")
    /\ getitem "Check-in Date" d = Some (VStr "")
    /\ getitem "Check-out Date" d = Some (VStr "").

(** The guest name, the dates and the extra facility of a row are empty. *)
Definition fields_empty (r : Room) : Prop :=
  Name_of_Guest r = "" /\ Check_in_Date r = "" /\ Check_out_Date r = ""
  /\ Extra_Facility r = "".

(** The invariant of a room record, and of the ledger. *)
Definition room_invariant (r : Room) : Prop :=
  is_available r = true <-> fields_empty r.

Definition ledger_invariant (s : Server) : Prop :=
  Forall room_invariant (df s).

(** Room [n] is in the ledger. *)
Definition room_exists (n : Z) (s : Server) : Prop :=
  exists r, In r (df s) /\ Room_Number r = n.

(** The stored check-out date of a row is a date on or before
    [check_in_date]. *)
Definition frees_by (check_in_date : Datetime.datetime) (r : Room) : bool :=
  match Datetime.strptime (Check_out_Date r) with
  | Some room_checkout => Datetime.le room_checkout check_in_date
  | None => false
  end.

(** The rows offered for a stay that starts on [check_in_date]. *)
Definition offered (check_in_date : Datetime.datetime) (r : Room) : bool :=
  is_available r || frees_by check_in_date r.

(** The rows offered to a regular guest: those not held back for
    upselling. *)
Definition offered_regular (check_in_date : Datetime.datetime) (r : Room)
  : bool :=
  negb (is_reserved r) && offered check_in_date r.

End Ledger.

(** ** The calendar, stated apart from the code *)

Module Calendar.
Import Datetime.

(** Leap years of the Gregorian calendar. *)
Definition leap (y : Z) : bool :=
  (y mod 400 =? 0) || ((y mod 4 =? 0) && negb (y mod 100 =? 0)).

(** The number of days of month [m] of year [y]. *)
Definition month_length (y m : Z) : Z :=
  if m =? 2 then (if leap y then 29 else 28)
  else if (m =? 4) || (m =? 6) || (m =? 9) || (m =? 11) then 30
  else 31.

(** The day that follows [t]. *)
Definition tomorrow (t : datetime) : datetime :=
  if day t <? month_length (year t) (month t)
  then mkDate (year t) (month t) (day t + 1)
  else if month t <? 12 then mkDate (year t) (month t + 1) 1
  else mkDate (year t + 1) 1 1.

(** The day [n] days after [t]. *)
Definition days_after (n : nat) (t : datetime) : datetime :=
  Nat.iter n tomorrow t.

End Calendar.

(** ** A small ledger for the examples *)

Module Sample.
Import Py BookingServer.

Definition room_101 : Room :=
  mkRoom 101 "Deluxe" "Booked" "Guest_7" "2" "" "2025-07-01" "2025-07-10"
         4200 "No".

Definition room_102 : Room :=
  mkRoom 102 "Suite" "Available" "" "" "" "" "" 5000 "Yes".

Definition room_103 : Room :=
  mkRoom 103 "Standard" "Available" "" "" "" "" "" 3500 "No".

Definition room_104 : Room :=
  mkRoom 104 "Suite" "Booked" "Guest_9" "2" "" "2025-07-05" "2025-07-10"
         8000 "Yes".

Definition rooms : list Room := [room_101; room_102; room_103; room_104].

Definition server : Server := mkServer rooms rooms.

(** A stay of three nights in room 103. *)
Definition three_nights : BookingRequest :=
  mkBookingRequest 7 103 "2025-08-01" "2025-08-04" 2 "Leisure".

(** The same stay with the two dates exchanged. *)
Definition reversed : BookingRequest :=
  mkBookingRequest 7 103 "2025-08-04" "2025-08-01" 2 "Leisure".

(** A stay that ends on the day it starts. *)
Definition same_day : BookingRequest :=
  mkBookingRequest 7 103 "2025-08-01" "2025-08-01" 2 "Leisure".

(** A status update that marks a room booked and names no guest. *)
Definition mark_booked : RoomUpdate :=
  mkRoomUpdate 103 "Booked" "" (AStr "") "" "" "".

Definition now : string := "202511031200".

(** A guest who used the spa and the pool and asked for a quiet room. *)
Definition guest : ContextAnalyzer.GuestData :=
  ContextAnalyzer.mkGuestData
    "Deluxe" "Quiet room on a high floor" "Spa, Pool" "Teacher" ""
    "Silver" "Credit Card" 12500 "Good stay".

(** A guest who used the gym only. *)
Definition gym_guest : ContextAnalyzer.GuestData :=
  ContextAnalyzer.mkGuestData
    "Standard" "" "Gym" "Engineer" "" "New" "Cash" 2500 "".

(** The ledger after [three_nights] is booked, and the confirmation. *)
Definition booked : Server :=
  let rooms' := [room_101; room_102;
                 mkRoom 103 "Standard" "Booked" "Guest_7" "" ""
                        "2025-08-01" "2025-08-04" 3500 "No";
                 room_104] in
  mkServer rooms' rooms'.

Definition confirmation : BookingResponse :=
  mkBookingResponse "BK7103202511031200" 7 103 "Standard" "2025-08-01"
                    "2025-08-04" 2 "Leisure" 10500 "Confirmed".

End Sample.

(** ** [booking_server.py]: the query endpoints *)

Module Queries.
Import Py BookingServer.

(** GET [/]. *)
Definition root (s : Server) : dict :=
  [ ("message", VStr "Hotel Booking Server is running");
    ("total_rooms", VInt (Z.of_nat (List.length (df s)))) ].

(** GET [/rooms/reserved-for-upselling]. *)
Definition get_reserved_rooms (s : Server) : outcome (list dict) :=
  let reserved_rooms :=
    filter (fun r => String.eqb (lower (reserved_for_upselling r)) "yes")
           (df s) in
  returning (_json_ready (map to_dict reserved_rooms)).

(** GET [/rooms/all-for-staff]. *)
Definition all_rooms_for_staff (s : Server) : outcome (list dict) :=
  returning (_json_ready (map to_dict (df s))).

(** GET [/rooms/by-type/{room_type}]. *)
Definition rooms_by_type (room_type : string) (s : Server)
  : outcome (list dict) :=
  let rooms :=
    filter (fun r => String.eqb (lower (Room_Type r)) (lower room_type))
           (df s) in
  match rooms with
  | [] => HTTPException 404 ("No " ++ room_type ++ " rooms found")
  | _ :: _ => returning (_json_ready (map to_dict rooms))
  end.

(** GET [/rooms/details/{room_number}]: the first record of
    [_json_ready([row.iloc[0].to_dict()])], a list of one record. *)
Definition room_details (room_number : Z) (s : Server) : outcome dict :=
  match rows_of room_number (df s) with
  | [] => not_found room_number
  | row0 :: _ =>
      match _json_ready [to_dict row0] with
      | Some (record :: _) => Return record
      | _ => Uncaught ValueError
      end
  end.

(** The dictionary returned by [room_availability]; [current_guest] is
    [None] for an available room. *)
Record Availability_info : Type := mkAvailability_info {
  info_room_number : Z;
  available : bool;
  info_room_type : string;
  info_price : float;
  availability_status : string;
  current_guest : option string;
  info_reserved_for_upselling : string
}.

(** GET [/rooms/check-availability/{room_number}]. *)
Definition room_availability (room_number : Z) (s : Server)
  : outcome Availability_info :=
  match rows_of room_number (df s) with
  | [] => not_found room_number
  | data :: _ =>
      let available := String.eqb (lower (Availability data)) "available" in
      Return {| info_room_number := room_number;
                available := available;
                info_room_type := Room_Type data;
                info_price := Price data;
                availability_status := Availability data;
                current_guest :=
                  if negb available then Some (Name_of_Guest data) else None;
                info_reserved_for_upselling := reserved_for_upselling data |}
  end.

(** The dictionary returned by [room_price]. *)
Record Price_info : Type := mkPrice_info {
  price_room_number : Z;
  price_room_type : string;
  price : float;
  extra_facilities : string;
  price_reserved_for_upselling : string
}.

(** GET [/rooms/price/{room_number}]. *)
Definition room_price (room_number : Z) (s : Server) : outcome Price_info :=
  match rows_of room_number (df s) with
  | [] => not_found room_number
  | data :: _ =>
      Return {| price_room_number := room_number;
                price_room_type := Room_Type data;
                price := Price data;
                extra_facilities := or_ (Extra_Facility data) "None";
                price_reserved_for_upselling := reserved_for_upselling data |}
  end.

End Queries.

(** ** [staff_interface_main.py]: the request that frees a room *)

Module Staff.
Import Py BookingServer.

(** [room_data] of [free_room], the body of its PUT to
    [/rooms/{room_number}/status]. *)
Definition room_data (room_number : Z) : RoomUpdate :=
  {| upd_room_number := room_number;
     upd_availability := "Available";
     upd_guest_name := "";
     upd_number_of_people := AStr "";
     upd_check_in_date := "";
     upd_check_out_date := "";
     upd_extra_facility := "" |}.

End Staff.

(** ** [hotel_mcp_sse_server.py]: drivers, upsells and predictions *)

Module ContextTools.
Import Py ContextAnalyzer.

(** [l.append(x)]. *)
Definition append {A : Type} (l : list A) (x : A) : list A :=
  (l ++ [x])%list.

Definition _identify_recommendation_drivers (guest_data : GuestData)
  : list string :=
  let loyalty := loyalty_member guest_data in
  let profession := lower (profession guest_data) in
  let amenities := lower (amenities_used guest_data) in
  let activities := lower (extra_activities_booked guest_data) in
  let total_bill := total_bill guest_data in
  let drivers : list string := [] in
  (* Primary drivers *)
  let drivers :=
    if existsb (String.eqb loyalty) ["Gold"; "Platinum"; "Diamond"]
    then append drivers ("VIP_" ++ loyalty ++ "_status")
    else drivers in
  let drivers :=
    if (15000 <? total_bill)%float
    then append drivers "high_value_guest"
    else if (8000 <? total_bill)%float
         then append drivers "moderate_value_guest"
         else drivers in
  let drivers :=
    if contains "business" profession || contains "executive" profession
    then append drivers "business_professional"
    else drivers in
  let drivers :=
    if any_in ["spa"; "wellness"; "massage"] amenities
    then append drivers "wellness_focused"
    else drivers in
  if any_in ["tour"; "cultural"; "adventure"] activities
  then append drivers "experience_seeker"
  else drivers.

(** One entry of the list built by [_generate_contextual_upsells]. *)
Record Upsell : Type := mkUpsell {
  service : string;
  upsell_price : Z;
  reasoning : string
}.

(** [guest_data] is a profile with every column present, as the guest
    server returns it; the defaults of the [get] calls in the texts are then
    unused.  [booking_result] is not read. *)
Definition _generate_contextual_upsells (guest_data : GuestData)
  (contextual_insights : Analysis)
  (booking_result : BookingServer.BookingResponse) : list Upsell :=
  let upsells : list Upsell := [] in
  let loyalty := loyalty_member guest_data in
  let lifestyle := lifestyle_profile contextual_insights in
  (* Upsell based on lifestyle *)
  let upsells :=
    if String.eqb (wellness_focus lifestyle) "high"
    then append upsells
           (mkUpsell "Spa Package Addition" 3000
              ("Perfect complement to your booking based on your "
               ++ amenities_used guest_data ++ " usage"))
    else upsells in
  (* Upsell based on loyalty *)
  let upsells :=
    if existsb (String.eqb loyalty) ["Gold"; "Platinum"]
    then append upsells
           (mkUpsell (loyalty ++ " Member Room Upgrade") 2000
              ("Exclusive " ++ loyalty
               ++ " member upgrade available for your stay"))
    else upsells in
  (* Upsell based on profession *)
  let profession_lower := lower (profession guest_data) in
  if any_in ["executive"; "manager"; "business"] profession_lower
  then append upsells
         (mkUpsell "Business Executive Package" 1500
            ("Tailored for " ++ profession guest_data ++ " professionals"))
  else upsells.

Record Predictions : Type := mkPredictions {
  likely_to_return : string;
  upsell_receptivity : string;
  service_utilization : string;
  satisfaction_probability : string;
  recommendation_likelihood : string
}.

Definition _generate_behavioral_predictions (guest_profile : GuestData)
  (contextual_insights : Analysis) : Predictions :=
  let loyalty := loyalty_member guest_profile in
  let total_bill := total_bill guest_profile in
  let satisfaction := satisfaction_insights contextual_insights in
  let loyalty_behavior := loyalty_behavior contextual_insights in
  (* Return likelihood *)
  let likely_to_return :=
    if existsb (String.eqb loyalty) ["Gold"; "Platinum"]
       && (10000 <? total_bill)%float
    then "high"
    else if String.eqb (overall_sentiment satisfaction) "very_positive"
         then "high"
         else "moderate" in
  (* Upsell receptivity *)
  let upsell_receptivity :=
    if String.eqb (spending_category loyalty_behavior) "high" then "high"
    else if String.eqb (service_sensitivity satisfaction) "high"
         then "moderate-high"
         else "moderate" in
  mkPredictions likely_to_return upsell_receptivity "moderate" "high"
                "moderate".

(** The literals 0.1 and 0.2 are written as the binary64 values nearest to
    them. *)
Definition tenth : float := 0x1.999999999999ap-4%float.
Definition fifth : float := 0x1.999999999999ap-3%float.

Definition _calculate_confidence_score (guest_profile : GuestData) : float :=
  let score := 0.5%float in
  (* Increase confidence based on data richness *)
  let score :=
    if truthy (special_requests guest_profile)
    then (score + tenth)%float else score in
  let score :=
    if truthy (amenities_used guest_profile)
    then (score + tenth)%float else score in
  let score :=
    if truthy (extra_activities_booked guest_profile)
    then (score + tenth)%float else score in
  let score :=
    if truthy (feedback_and_issues guest_profile)
    then (score + fifth)%float else score in
  let score :=
    if (0 <? total_bill guest_profile)%float
    then (score + tenth)%float else score in
  (* min(score, 1.0) *)
  if (1 <? score)%float then 1%float else score.

End ContextTools.

(** ** Vocabulary of the further properties *)

Module Frames.
Import Py BookingServer.

(** What an operation on room [n] keeps of a row: its number, type, price
    and upselling flag, and the whole row when its number is not [n]. *)
Definition kept (n : Z) (r r' : Room) : Prop :=
  Room_Number r' = Room_Number r
  /\ Room_Type r' = Room_Type r
  /\ Price r' = Price r
  /\ reserved_for_upselling r' = reserved_for_upselling r
  /\ (Room_Number r <> n -> r' = r).

(** The six columns written by the operations are all non-empty wherever
    they are non-empty in [r0]. *)
Definition keeps_filled (r0 r : Room) : Prop :=
  (truthy (Availability r0) = true -> truthy (Availability r) = true)
  /\ (truthy (Name_of_Guest r0) = true -> truthy (Name_of_Guest r) = true)
  /\ (truthy (Number_of_People r0) = true ->
      truthy (Number_of_People r) = true)
  /\ (truthy (Extra_Facility r0) = true -> truthy (Extra_Facility r) = true)
  /\ (truthy (Check_in_Date r0) = true -> truthy (Check_in_Date r) = true)
  /\ (truthy (Check_out_Date r0) = true ->
      truthy (Check_out_Date r) = true).

(** The test of [rooms_by_type]. *)
Definition of_type (room_type : string) (r : Room) : bool :=
  String.eqb (lower (Room_Type r)) (lower room_type).

(** The test of [occupied_rooms]. *)
Definition is_booked (r : Room) : bool :=
  String.eqb (lower (Availability r)) "booked".

(** The upselling flag held by a record of a listing. *)
Definition flag_of (d : dict) : option value :=
  getitem "reserved for upselling/season" d.

End Frames.

(** ** Further sample data *)

Module Cases.
Import Py BookingServer.

(** A request whose check-out text is not a date. *)
Definition bad_date : BookingRequest :=
  mkBookingRequest 7 103 "2025-08-01" "04/08/2025" 2 "Leisure".

(** A second request for room 103. *)
Definition second : BookingRequest :=
  mkBookingRequest 8 103 "2025-09-01" "2025-09-03" 1 "Business".

(** A Gold member, an executive, with a bill above every threshold. *)
Definition executive : ContextAnalyzer.GuestData :=
  ContextAnalyzer.mkGuestData
    "Suite" "Late check-out" "Spa, Business Center" "Executive Director"
    "City Tour" "Gold" "Credit Card" 25000
    "Excellent stay, very helpful staff".

(** A stay of two nights across the leap day of 2024. *)
Definition over_leap_day : BookingRequest :=
  mkBookingRequest 7 103 "2024-02-28" "2024-03-01" 2 "Leisure".

(** A stay of one night into the new year. *)
Definition new_year : BookingRequest :=
  mkBookingRequest 7 103 "2025-12-31" "2026-01-01" 2 "Leisure".

(** A stay of one night into the next month. *)
Definition month_end : BookingRequest :=
  mkBookingRequest 7 103 "2025-07-31" "2025-08-01" 2 "Leisure".

Definition an_update : RoomUpdate :=
  mkRoomUpdate 101 "Booked" "Asha Rao" (AnInt 2) "2025-07-01" "2025-07-12"
               "Airport pickup".

End Cases.

Import Py BookingServer Ledger.

(** ** Lemmas on the primitives *)

Lemma traverse_map {A B C : Type} (f : B -> option C) (h : A -> B)
  (g : A -> C) (l : list A) :
  (forall x, In x l -> f (h x) = Some (g x)) ->
  traverse f (map h l) = Some (map g l).
Proof.
  induction l as [|x l IH]; intros H; simpl.
  - reflexivity.
  - rewrite (H x) by (left; reflexivity).
    rewrite IH by (intros y Hy; apply H; right; exact Hy).
    reflexivity.
Qed.

Lemma clean_item_float (k : string) (f : float) :
  clean_item (k, VFloat f) = Some (k, clean_float f).
Proof.
  unfold clean_item, clean_float, isna.
  destruct (PrimFloat.is_nan f); [reflexivity|].
  destruct (String.eqb k "Price"); reflexivity.
Qed.

Lemma clean_item_str (k : string) (x : string) :
  String.eqb k "Price" = false -> clean_item (k, VStr x) = Some (k, VStr x).
Proof. intros H. unfold clean_item, isna. rewrite H. reflexivity. Qed.

Lemma clean_item_int (k : string) (n : Z) :
  String.eqb k "Price" = false -> clean_item (k, VInt n) = Some (k, VInt n).
Proof. intros H. unfold clean_item, isna. rewrite H. reflexivity. Qed.

Lemma clean_item_bool (k : string) (b : bool) :
  String.eqb k "Price" = false ->
  clean_item (k, VBool b) = Some (k, VInt (Z.b2z b)).
Proof. intros H. unfold clean_item, isna. rewrite H. reflexivity. Qed.

Ltac clean_items :=
  repeat (first
    [ rewrite clean_item_float
    | rewrite clean_item_str by reflexivity
    | rewrite clean_item_int by reflexivity
    | rewrite clean_item_bool by reflexivity ]).

Lemma clean_to_dict (r : Room) :
  traverse clean_item (to_dict r) = Some (json_row r).
Proof.
  unfold to_dict, json_row. cbn [traverse]. clean_items. reflexivity.
Qed.

Lemma clean_with_markup (m : float) (r : Room) :
  traverse clean_item (with_markup m r) = Some (json_markup m r).
Proof.
  unfold with_markup, json_markup, is_reserved, to_dict.
  destruct (String.eqb (lower (reserved_for_upselling r)) "yes");
    cbn [setitem String.eqb Ascii.eqb Bool.eqb traverse];
    clean_items; reflexivity.
Qed.

Lemma _json_ready_rows (l : list Room) :
  _json_ready (map to_dict l) = Some (map json_row l).
Proof.
  unfold _json_ready. apply traverse_map.
  intros r _. apply clean_to_dict.
Qed.

Lemma _json_ready_markup (m : float) (l : list Room) :
  _json_ready (map (with_markup m) l) = Some (map (json_markup m) l).
Proof.
  unfold _json_ready. apply traverse_map.
  intros r _. apply clean_with_markup.
Qed.

(** ** The listings, as filters of the ledger *)

Lemma available_rooms_eq (s : Server) :
  available_rooms s = Return (map json_row (filter regular (df s))).
Proof.
  unfold available_rooms. fold regular.
  rewrite _json_ready_rows. reflexivity.
Qed.

Lemma available_rooms_with_upselling_eq (m : float) (s : Server) :
  available_rooms_with_upselling m s
  = Return (map (json_markup m) (filter is_available (df s))).
Proof.
  unfold available_rooms_with_upselling.
  rewrite _json_ready_markup. reflexivity.
Qed.

Lemma number_json_row (r : Room) :
  getitem "Room Number" (json_row r) = Some (VInt (Room_Number r)).
Proof. reflexivity. Qed.

Lemma number_json_markup (m : float) (r : Room) :
  getitem "Room Number" (json_markup m r) = Some (VInt (Room_Number r)).
Proof. unfold json_markup. destruct (is_reserved r); reflexivity. Qed.

Lemma lists_room_json_row (n : Z) (l : list Room) :
  lists_room n (map json_row l) <-> exists r, In r l /\ Room_Number r = n.
Proof.
  unfold lists_room. split.
  - intros [d [Hd Hn]]. apply in_map_iff in Hd. destruct Hd as [r [<- Hr]].
    rewrite number_json_row in Hn. exists r. split; congruence.
  - intros [r [Hr Hn]]. exists (json_row r). split.
    + apply in_map. exact Hr.
    + rewrite number_json_row. congruence.
Qed.

Lemma lists_room_json_markup (m : float) (n : Z) (l : list Room) :
  lists_room n (map (json_markup m) l)
  <-> exists r, In r l /\ Room_Number r = n.
Proof.
  unfold lists_room. split.
  - intros [d [Hd Hn]]. apply in_map_iff in Hd. destruct Hd as [r [<- Hr]].
    rewrite number_json_markup in Hn. exists r. split; congruence.
  - intros [r [Hr Hn]]. exists (json_markup m r). split.
    + apply in_map. exact Hr.
    + rewrite number_json_markup. congruence.
Qed.

(** ** The mutations, row by row *)

Lemma in_assign (n : Z) (set : Room -> Room) (l : list Room) (r' : Room) :
  In r' (assign n set l) <->
  exists r, In r l
    /\ ((Room_Number r = n /\ r' = set r) \/ (Room_Number r <> n /\ r' = r)).
Proof.
  unfold assign. rewrite in_map_iff. split.
  - intros [r [Hr Hin]]. exists r. split; [exact Hin|].
    destruct (Z.eqb_spec (Room_Number r) n); [left | right]; auto.
  - intros [r [Hin [[Hn ->] | [Hn ->]]]]; exists r; split; auto.
    + apply Z.eqb_eq in Hn. rewrite Hn. reflexivity.
    + apply Z.eqb_neq in Hn. rewrite Hn. reflexivity.
Qed.

Lemma rows_of_nonempty (n : Z) (l : list Room) :
  rows_of n l <> [] <-> exists r, In r l /\ Room_Number r = n.
Proof.
  unfold rows_of. split.
  - intros H. destruct (filter _ l) as [|r l'] eqn:E; [congruence|].
    assert (Hr : In r (filter (fun r => Room_Number r =? n) l))
      by (rewrite E; left; reflexivity).
    apply filter_In in Hr. destruct Hr as [Hr Hn].
    exists r. split; [exact Hr | apply Z.eqb_eq; exact Hn].
  - intros [r [Hr Hn]] E.
    assert (Hin : In r (filter (fun r => Room_Number r =? n) l))
      by (apply filter_In; split; [exact Hr | apply Z.eqb_eq; exact Hn]).
    rewrite E in Hin. exact Hin.
Qed.

Lemma create_booking_return (now : string) (b : BookingRequest)
  (s s' : Server) (resp : BookingResponse) :
  create_booking now b s = (s', Return resp) ->
  exists row0 rest check_in check_out,
    rows_of (room_number b) (df s) = row0 :: rest
    /\ is_available row0 = true
    /\ Datetime.strptime (check_in_date b) = Some check_in
    /\ Datetime.strptime (check_out_date b) = Some check_out
    /\ df s' = assign (room_number b) (book b) (df s)
    /\ csv s' = df s'
    /\ total_cost resp
       = (Price row0
          * float_of_int (Datetime.days_between check_out check_in))%float
    /\ booking_status resp = "Confirmed".
Proof.
  unfold create_booking. intros H.
  destruct (rows_of (room_number b) (df s)) as [|row0 rest];
    [discriminate|].
  destruct (is_available row0) eqn:Ha; simpl in H; [|discriminate].
  destruct (Datetime.strptime (check_out_date b)) as [co|]; [|discriminate].
  destruct (Datetime.strptime (check_in_date b)) as [ci|]; [|discriminate].
  inversion H; subst; clear H.
  exists row0, rest, ci, co. simpl. repeat split; try reflexivity; exact Ha.
Qed.

Lemma booked_not_available (b : BookingRequest) (r : Room) :
  is_available (book b r) = false.
Proof. reflexivity. Qed.

Lemma cleared_available (r : Room) : is_available (clear r) = true.
Proof. reflexivity. Qed.

(** C3. After a successful [create_booking] on a room (which the room
    exists and is available for), neither listing of the available rooms,
    the regular one or the one that includes the rooms reserved for
    upselling, contains that room number. *)
Theorem create_booking_then_list_available
  (now : string) (b : BookingRequest) (s s' : Server)
  (resp : BookingResponse) (m : float) :
  create_booking now b s = (s', Return resp) ->
  (exists rows, available_rooms s' = Return rows
                /\ ~ lists_room (room_number b) rows)
  /\ (exists rows, available_rooms_with_upselling m s' = Return rows
                   /\ ~ lists_room (room_number b) rows).
Proof.
  intros H. apply create_booking_return in H.
  destruct H as (row0 & rest & ci & co & _ & _ & _ & _ & Hdf & _).
  assert (Hno : forall r, In r (df s') -> Room_Number r = room_number b ->
                          is_available r = false).
  { intros r Hr Hn. rewrite Hdf in Hr. apply in_assign in Hr.
    destruct Hr as [r0 [_ [[_ ->] | [Hne ->]]]].
    - apply booked_not_available.
    - contradiction. }
  split.
  - eexists. split; [apply available_rooms_eq|].
    rewrite lists_room_json_row. intros [r [Hr Hn]].
    apply filter_In in Hr. destruct Hr as [Hr Hreg].
    unfold regular in Hreg. apply andb_true_iff in Hreg.
    rewrite (Hno r Hr Hn) in Hreg. destruct Hreg; discriminate.
  - eexists. split; [apply available_rooms_with_upselling_eq|].
    rewrite lists_room_json_markup. intros [r [Hr Hn]].
    apply filter_In in Hr. destruct Hr as [Hr Ha].
    rewrite (Hno r Hr Hn) in Ha. discriminate.
Qed.

Lemma cancel_booking_return (n : Z) (s : Server) :
  room_exists n s ->
  cancel_booking n s
  = ({| df := assign n clear (df s); csv := assign n clear (df s) |},
     Return ("Booking cancelled for room " ++ str_int n)).
Proof.
  intros H. apply rows_of_nonempty in H. unfold cancel_booking.
  destruct (rows_of n (df s)); [contradiction|]. reflexivity.
Qed.

Lemma cleared_json_row (r : Room) :
  lists_cleared (Room_Number r) [json_row (clear r)].
Proof.
  exists (json_row (clear r)). split; [left; reflexivity|].
  repeat split; reflexivity.
Qed.

Lemma cleared_json_markup (m : float) (r : Room) :
  lists_cleared (Room_Number r) [json_markup m (clear r)].
Proof.
  exists (json_markup m (clear r)). split; [left; reflexivity|].
  unfold json_markup. destruct (is_reserved (clear r));
    repeat split; reflexivity.
Qed.

Lemma lists_cleared_incl (n : Z) (l l' : list dict) :
  incl l l' -> lists_cleared n l -> lists_cleared n l'.
Proof.
  intros Hi (d & Hd & H). exists d. split; [apply Hi; exact Hd | exact H].
Qed.

(** C7, as amended. For every existing room [n], [cancel_booking n]
    succeeds, and afterwards the listing that includes the rooms reserved for
    upselling contains [n] with its guest and date fields empty; the regular
    listing contains it, with the same fields empty, when the room's
    upselling flag is [No]. *)
Theorem free_room_then_list_available (n : Z) (s : Server) (m : float) :
  room_exists n s ->
  exists s' msg,
    cancel_booking n s = (s', Return msg)
    /\ (exists rows, available_rooms_with_upselling m s' = Return rows
                     /\ lists_cleared n rows)
    /\ ((exists r, In r (df s) /\ Room_Number r = n
                   /\ lower (reserved_for_upselling r) = "no") ->
        exists rows, available_rooms s' = Return rows
                     /\ lists_cleared n rows).
Proof.
  intros He. rewrite (cancel_booking_return n s He).
  do 2 eexists. split; [reflexivity|].
  assert (Hin : forall r, In r (df s) -> Room_Number r = n ->
                          In (clear r) (assign n clear (df s))).
  { intros r Hr Hn. apply in_assign. exists r. split; [exact Hr|].
    left. split; [exact Hn | reflexivity]. }
  split.
  - destruct He as [r [Hr Hn]].
    eexists. split; [apply available_rooms_with_upselling_eq|].
    subst n. apply (lists_cleared_incl _ [json_markup m (clear r)]);
      [|apply cleared_json_markup].
    intros d [<- | []]. apply in_map. apply filter_In.
    split; [apply Hin; auto | apply cleared_available].
  - intros [r (Hr & Hn & Hflag)].
    eexists. split; [apply available_rooms_eq|].
    subst n. apply (lists_cleared_incl _ [json_row (clear r)]);
      [|apply cleared_json_row].
    intros d [<- | []]. apply in_map. apply filter_In.
    split; [apply Hin; auto|].
    unfold regular. rewrite cleared_available. simpl.
    rewrite Hflag. reflexivity.
Qed.

Lemma free_room_then_list_available_witness :
  room_exists 101 Sample.server
  /\ exists s' msg,
    cancel_booking 101 Sample.server = (s', Return msg)
    /\ (exists rows, available_rooms_with_upselling 15 s' = Return rows
                     /\ lists_cleared 101 rows)
    /\ ((exists r, In r (df Sample.server) /\ Room_Number r = 101
                   /\ lower (reserved_for_upselling r) = "no") ->
        exists rows, available_rooms s' = Return rows
                     /\ lists_cleared 101 rows).
Proof.
  assert (He : room_exists 101 Sample.server).
  { exists Sample.room_101. split; [left; reflexivity | reflexivity]. }
  split; [exact He|].
  exact (free_room_then_list_available 101 Sample.server 15 He).
Defined.

(** C7 fails as stated: room 104 is reserved for upselling; once freed, the
    regular listing of available rooms still leaves it out. *)
Lemma free_room_reserved_not_listed :
  exists s' msg rows,
    cancel_booking 104 Sample.server = (s', Return msg)
    /\ available_rooms s' = Return rows
    /\ ~ lists_room 104 rows.
Proof.
  do 3 eexists. split; [reflexivity|]. split; [vm_compute; reflexivity|].
  intros [d [Hd Hn]]. simpl in Hd.
  destruct Hd as [<- | []]. vm_compute in Hn. discriminate.
Qed.

Lemma create_booking_sample :
  create_booking Sample.now Sample.three_nights Sample.server
  = (Sample.booked, Return Sample.confirmation).
Proof. vm_compute. reflexivity. Qed.

Lemma create_booking_then_list_available_witness :
  create_booking Sample.now Sample.three_nights Sample.server
     = (Sample.booked, Return Sample.confirmation)
  /\ (exists rows, available_rooms Sample.booked = Return rows
                   /\ ~ lists_room 103 rows)
  /\ (exists rows,
        available_rooms_with_upselling 15 Sample.booked = Return rows
        /\ ~ lists_room 103 rows).
Proof.
  split; [exact create_booking_sample|].
  exact (create_booking_then_list_available
           Sample.now Sample.three_nights Sample.server Sample.booked
           Sample.confirmation 15 create_booking_sample).
Defined.

(** ** The invariant of the room records *)

Lemma invariant_book (b : BookingRequest) (r : Room) :
  room_invariant (book b r).
Proof.
  unfold room_invariant, fields_empty. rewrite booked_not_available.
  simpl. split; [discriminate|]. intros [H _]. discriminate.
Qed.

Lemma invariant_clear (r : Room) : room_invariant (clear r).
Proof.
  unfold room_invariant, fields_empty. rewrite cleared_available.
  simpl. split; intros _; repeat split; reflexivity.
Qed.

Lemma invariant_assign (n : Z) (set : Room -> Room) (l : list Room) :
  (forall r, room_invariant (set r)) ->
  Forall room_invariant l -> Forall room_invariant (assign n set l).
Proof.
  intros Hset Hl. apply Forall_forall. intros r' Hr'.
  apply in_assign in Hr'. destruct Hr' as [r [Hr [[_ ->] | [_ ->]]]].
  - apply Hset.
  - rewrite Forall_forall in Hl. apply Hl. exact Hr.
Qed.

(** C1, as amended. If every room record satisfies the invariant
    (availability is [Available] exactly when the guest name, the two dates
    and the extra facility are empty), then every room record satisfies it
    after [create_booking], whatever its outcome, and after
    [cancel_booking]. *)
Theorem invariant_after_booking_and_cancel (s : Server) :
  ledger_invariant s ->
  (forall now b, ledger_invariant (fst (create_booking now b s)))
  /\ (forall n, ledger_invariant (fst (cancel_booking n s))).
Proof.
  unfold ledger_invariant. intros Hs. split.
  - intros now b. unfold create_booking.
    destruct (rows_of (room_number b) (df s)) as [|row0 rest];
      [exact Hs|].
    destruct (negb (is_available row0)); [exact Hs|].
    assert (H' : Forall room_invariant
                   (assign (room_number b) (book b) (df s)))
      by (apply invariant_assign; [apply invariant_book | exact Hs]).
    destruct (Datetime.strptime (check_out_date b));
      [destruct (Datetime.strptime (check_in_date b))|]; exact H'.
  - intros n. unfold cancel_booking.
    destruct (rows_of n (df s)); [exact Hs|].
    simpl. apply invariant_assign; [apply invariant_clear | exact Hs].
Qed.

Lemma sample_invariant : ledger_invariant Sample.server.
Proof.
  unfold ledger_invariant. simpl.
  repeat constructor; unfold fields_empty; simpl;
    solve [ discriminate | intros [H _]; discriminate H
          | intros _; repeat split; reflexivity ].
Qed.

Lemma invariant_after_booking_and_cancel_witness :
  ledger_invariant Sample.server
  /\ (forall now b,
        ledger_invariant (fst (create_booking now b Sample.server)))
  /\ (forall n, ledger_invariant (fst (cancel_booking n Sample.server))).
Proof.
  split; [exact sample_invariant|].
  exact (invariant_after_booking_and_cancel Sample.server sample_invariant).
Defined.

(** C1 fails as stated: in a ledger that satisfies the invariant,
    [update_guest] with a payload that sets room 103 to [Booked] and names
    no guest leaves a record that is not [Available] although its guest,
    date and facility fields are all empty. *)
Lemma update_guest_breaks_invariant :
  ledger_invariant Sample.server
  /\ exists s' msg,
       update_guest 103 Sample.mark_booked Sample.server = (s', Return msg)
       /\ ~ ledger_invariant s'.
Proof.
  split; [exact sample_invariant|].
  do 2 eexists. split; [reflexivity|].
  unfold ledger_invariant. rewrite Forall_forall. intros H.
  specialize (H (mkRoom 103 "Standard" "Booked" "" "" "" "" "" 3500 "No")).
  destruct H as [_ H].
  - vm_compute. right; right; left; reflexivity.
  - assert (Hf : is_available
                   (mkRoom 103 "Standard" "Booked" "" "" "" "" "" 3500 "No")
                 = true)
      by (apply H; repeat split; reflexivity).
    vm_compute in Hf. discriminate.
Qed.

(** ** The listings for a date range *)

Lemma truthy_false (x : string) : truthy x = false -> x = "".
Proof. destruct x; [reflexivity | discriminate]. Qed.

Lemma strptime_empty : Datetime.strptime "" = None.
Proof. reflexivity. Qed.

Lemma frees_by_truthy (ci : Datetime.datetime) (r : Room) :
  truthy (Check_out_Date r) = false -> frees_by ci r = false.
Proof.
  intros H. unfold frees_by. rewrite (truthy_false _ H).
  rewrite strptime_empty. reflexivity.
Qed.

Lemma for_dates_row_eq (ci : Datetime.datetime) (r : Room) :
  for_dates_row ci r
  = if negb (is_reserved r) && offered ci r then [to_dict r] else [].
Proof.
  unfold for_dates_row, offered. fold (is_reserved r).
  destruct (is_reserved r); [reflexivity|].
  destruct (is_available r); [reflexivity|]. simpl.
  destruct (truthy (Check_out_Date r)) eqn:Ht.
  - unfold frees_by.
    destruct (Datetime.strptime (Check_out_Date r)) as [d|]; [|reflexivity].
    destruct (Datetime.le d ci); reflexivity.
  - rewrite (frees_by_truthy ci r Ht). reflexivity.
Qed.

Lemma for_dates_upselling_row_eq (ci : Datetime.datetime) (m : float)
  (r : Room) :
  for_dates_upselling_row ci m r
  = if offered ci r then [with_markup m r] else [].
Proof.
  unfold for_dates_upselling_row, offered.
  destruct (is_available r); [reflexivity|]. simpl.
  destruct (truthy (Check_out_Date r)) eqn:Ht.
  - unfold frees_by.
    destruct (Datetime.strptime (Check_out_Date r)) as [d|]; [|reflexivity].
    destruct (Datetime.le d ci); reflexivity.
  - rewrite (frees_by_truthy ci r Ht). reflexivity.
Qed.

Lemma flat_map_filter {A B : Type} (step : A -> list B) (keep : A -> bool)
  (f : A -> B) (l : list A) :
  (forall x, step x = if keep x then [f x] else []) ->
  flat_map step l = map f (filter keep l).
Proof.
  intros H. induction l as [|x l IH]; simpl; [reflexivity|].
  rewrite H, IH. destruct (keep x); reflexivity.
Qed.

Lemma available_rooms_for_dates_eq (check_in check_out : string)
  (ci co : Datetime.datetime) (s : Server) :
  Datetime.strptime check_in = Some ci ->
  Datetime.strptime check_out = Some co ->
  available_rooms_for_dates check_in check_out s
  = Return (map json_row (filter (offered_regular ci) (df s))).
Proof.
  intros Hi Ho. unfold available_rooms_for_dates. rewrite Hi, Ho.
  rewrite (flat_map_filter _ (offered_regular ci) to_dict)
    by (intros r; apply for_dates_row_eq).
  rewrite _json_ready_rows. reflexivity.
Qed.

Lemma available_rooms_for_dates_with_upselling_eq
  (check_in check_out : string) (ci co : Datetime.datetime) (m : float)
  (s : Server) :
  Datetime.strptime check_in = Some ci ->
  Datetime.strptime check_out = Some co ->
  available_rooms_for_dates_with_upselling check_in check_out m s
  = Return (map (json_markup m) (filter (offered ci) (df s))).
Proof.
  intros Hi Ho. unfold available_rooms_for_dates_with_upselling.
  rewrite Hi, Ho.
  rewrite (flat_map_filter _ (offered ci) (with_markup m))
    by (intros r; apply for_dates_upselling_row_eq).
  rewrite _json_ready_markup. reflexivity.
Qed.

Lemma offered_regular_json_row (ci : Datetime.datetime) (r r' : Room) :
  json_row r' = json_row r -> offered_regular ci r' = offered_regular ci r.
Proof.
  unfold json_row. intros H. injection H as _ _ Ha _ _ _ _ Ho _ Hr.
  unfold offered_regular, offered, is_reserved, is_available, frees_by.
  rewrite Ha, Ho, Hr. reflexivity.
Qed.

Lemma in_json_rows (keep : Room -> bool) (l : list Room) (r : Room) :
  (forall r', json_row r' = json_row r -> keep r' = keep r) ->
  In r l ->
  (In (json_row r) (map json_row (filter keep l)) <-> keep r = true).
Proof.
  intros Hk Hr. split.
  - intros H. apply in_map_iff in H. destruct H as [r' [He Hf]].
    apply filter_In in Hf. destruct Hf as [_ Hf].
    rewrite <- (Hk r' He). exact Hf.
  - intros H. apply in_map. apply filter_In. split; assumption.
Qed.

Lemma booked_offer (ci : Datetime.datetime) (r : Room) :
  Availability r = "Booked" ->
  Check_out_Date r = "2025-07-10" ->
  is_reserved r = false ->
  offered_regular ci r = Datetime.le (Datetime.mkDate 2025 7 10) ci.
Proof.
  intros Hb Ho Hr. unfold offered_regular, offered, is_available, frees_by.
  rewrite Hr, Hb, Ho. reflexivity.
Qed.

(** C4, as amended. For every requested date range whose two dates parse,
    [available_rooms_for_dates] returns exactly the rows not reserved for
    upselling that are [Available], or that are not [Available] and store a
    check-out date that parses and is on or before the requested check-in
    date; [available_rooms_for_dates_with_upselling] returns the rows
    selected by the same test without the filter on reserved rows.  In
    particular a row [Booked] with check-out 2025-07-10 and not reserved is
    returned for check-in 2025-07-10 and not for check-in 2025-07-09. *)
Theorem list_available_for_range
  (check_in check_out : string) (ci co : Datetime.datetime) (m : float)
  (s : Server) :
  Datetime.strptime check_in = Some ci ->
  Datetime.strptime check_out = Some co ->
  (exists rows,
     _json_ready (map to_dict (filter (offered_regular ci) (df s)))
     = Some rows
     /\ available_rooms_for_dates check_in check_out s = Return rows
     /\ forall r, In r (df s) ->
          Availability r = "Booked" ->
          Check_out_Date r = "2025-07-10" ->
          is_reserved r = false ->
          (check_in = "2025-07-10" -> In (json_row r) rows)
          /\ (check_in = "2025-07-09" -> ~ In (json_row r) rows))
  /\ (exists rows,
        _json_ready (map (with_markup m) (filter (offered ci) (df s)))
        = Some rows
        /\ available_rooms_for_dates_with_upselling check_in check_out m s
           = Return rows).
Proof.
  intros Hi Ho. split.
  - exists (map json_row (filter (offered_regular ci) (df s))).
    split; [apply _json_ready_rows|].
    split; [apply (available_rooms_for_dates_eq _ _ ci co); assumption|].
    intros r Hr Hb Hc Hres.
    pose proof (in_json_rows (offered_regular ci) (df s) r
                  (offered_regular_json_row ci r) Hr) as Hin.
    rewrite (booked_offer ci r Hb Hc Hres) in Hin.
    split; intros ->; vm_compute in Hi; injection Hi as <-.
    + apply Hin. reflexivity.
    + intros H. apply Hin in H. discriminate.
  - exists (map (json_markup m) (filter (offered ci) (df s))).
    split; [apply _json_ready_markup|].
    apply (available_rooms_for_dates_with_upselling_eq _ _ ci co);
      assumption.
Qed.

Lemma list_available_for_range_witness :
  Datetime.strptime "2025-07-10" = Some (Datetime.mkDate 2025 7 10)
  /\ Datetime.strptime "2025-07-12" = Some (Datetime.mkDate 2025 7 12)
  /\ (exists rows,
        _json_ready
          (map to_dict
               (filter (offered_regular (Datetime.mkDate 2025 7 10))
                       (df Sample.server)))
        = Some rows
        /\ available_rooms_for_dates "2025-07-10" "2025-07-12" Sample.server
           = Return rows
        /\ forall r, In r (df Sample.server) ->
             Availability r = "Booked" ->
             Check_out_Date r = "2025-07-10" ->
             is_reserved r = false ->
             ("2025-07-10" = "2025-07-10" -> In (json_row r) rows)
             /\ ("2025-07-10" = "2025-07-09" -> ~ In (json_row r) rows))
  /\ (exists rows,
        _json_ready
          (map (with_markup 15)
               (filter (offered (Datetime.mkDate 2025 7 10))
                       (df Sample.server)))
        = Some rows
        /\ available_rooms_for_dates_with_upselling
             "2025-07-10" "2025-07-12" 15 Sample.server
           = Return rows).
Proof.
  split; [reflexivity|]. split; [reflexivity|].
  exact (list_available_for_range
           "2025-07-10" "2025-07-12" (Datetime.mkDate 2025 7 10)
           (Datetime.mkDate 2025 7 12) 15 Sample.server
           eq_refl eq_refl).
Defined.

(** C4 fails as stated: room 102 is [Available], yet
    [available_rooms_for_dates] does not return it, because the row is
    reserved for upselling. *)
Lemma available_reserved_not_in_range :
  In Sample.room_102 (df Sample.server)
  /\ Availability Sample.room_102 = "Available"
  /\ exists rows,
       available_rooms_for_dates "2025-07-10" "2025-07-12" Sample.server
       = Return rows
       /\ ~ lists_room 102 rows.
Proof.
  split; [right; left; reflexivity|]. split; [reflexivity|].
  eexists. split; [vm_compute; reflexivity|].
  intros [d [Hd Hn]]. simpl in Hd.
  destruct Hd as [<- | [<- | []]]; vm_compute in Hn; discriminate.
Qed.

(** C10. For a fixed ledger and a check-in date that parses, the two
    listings for a date range return the same result for any two check-out
    arguments that parse. *)
Theorem range_listing_ignores_check_out
  (check_in check_out1 check_out2 : string)
  (ci co1 co2 : Datetime.datetime) (m : float) (s : Server) :
  Datetime.strptime check_in = Some ci ->
  Datetime.strptime check_out1 = Some co1 ->
  Datetime.strptime check_out2 = Some co2 ->
  available_rooms_for_dates check_in check_out1 s
  = available_rooms_for_dates check_in check_out2 s
  /\ available_rooms_for_dates_with_upselling check_in check_out1 m s
     = available_rooms_for_dates_with_upselling check_in check_out2 m s.
Proof.
  intros Hi H1 H2.
  unfold available_rooms_for_dates, available_rooms_for_dates_with_upselling.
  rewrite Hi, H1, H2. split; reflexivity.
Qed.

Lemma range_listing_ignores_check_out_witness :
  Datetime.strptime "2025-07-10" = Some (Datetime.mkDate 2025 7 10)
  /\ Datetime.strptime "2025-07-12" = Some (Datetime.mkDate 2025 7 12)
  /\ Datetime.strptime "2026-01-31" = Some (Datetime.mkDate 2026 1 31)
  /\ available_rooms_for_dates "2025-07-10" "2025-07-12" Sample.server
     = available_rooms_for_dates "2025-07-10" "2026-01-31" Sample.server
  /\ available_rooms_for_dates_with_upselling
       "2025-07-10" "2025-07-12" 15 Sample.server
     = available_rooms_for_dates_with_upselling
         "2025-07-10" "2026-01-31" 15 Sample.server.
Proof.
  split; [reflexivity|]. split; [reflexivity|]. split; [reflexivity|].
  exact (range_listing_ignores_check_out
           "2025-07-10" "2025-07-12" "2026-01-31"
           (Datetime.mkDate 2025 7 10) (Datetime.mkDate 2025 7 12)
           (Datetime.mkDate 2026 1 31) 15 Sample.server
           eq_refl eq_refl eq_refl).
Defined.

(** ** The cost of a booking *)

(** [create_booking] has no test on the order of the two dates: on an
    available room, two dates that parse always give a confirmation. *)
Lemma create_booking_confirms
  (now : string) (b : BookingRequest) (s : Server) (row0 : Room)
  (rest : list Room) (check_in check_out : Datetime.datetime) :
  rows_of (room_number b) (df s) = row0 :: rest ->
  is_available row0 = true ->
  Datetime.strptime (check_in_date b) = Some check_in ->
  Datetime.strptime (check_out_date b) = Some check_out ->
  exists s' resp,
    create_booking now b s = (s', Return resp)
    /\ booking_status resp = "Confirmed"
    /\ total_cost resp
       = (Price row0
          * float_of_int (Datetime.days_between check_out check_in))%float.
Proof.
  intros Hrow Ha Hi Ho. unfold create_booking.
  rewrite Hrow, Ha, Hi, Ho. simpl.
  do 2 eexists. split; [reflexivity|]. split; reflexivity.
Qed.

(** ** Dates: the ordinal respects the order of the field tuples *)

Lemma strptime_valid (x : string) (d : Datetime.datetime) :
  Datetime.strptime x = Some d ->
  Datetime.valid (Datetime.year d) (Datetime.month d) (Datetime.day d) = true.
Proof.
  unfold Datetime.strptime.
  destruct (Datetime.format_regex (list_ascii_of_string x))
    as [|[[[y m] dd] rest] l]; [discriminate|].
  destruct rest; [|discriminate].
  destruct (Datetime.valid y m dd) eqn:E; [|discriminate].
  intros H. injection H as <-. exact E.
Qed.

Lemma month_cases (m : Z) :
  1 <= m <= 12 ->
  m = 1 \/ m = 2 \/ m = 3 \/ m = 4 \/ m = 5 \/ m = 6 \/ m = 7 \/ m = 8
  \/ m = 9 \/ m = 10 \/ m = 11 \/ m = 12.
Proof. lia. Qed.

Ltac by_month H :=
  repeat (destruct H as [H | H]; [subst|]); [..|subst].

Ltac month_tables :=
  cbv [Datetime._DAYS_BEFORE_MONTH Datetime._DAYS_IN_MONTH Z.eqb Z.ltb
       Z.compare Pos.compare Pos.compare_cont Pos.eqb andb] in *.

Lemma day_of_year_bounds (y m d : Z) :
  Datetime.valid y m d = true ->
  1 <= Datetime._days_before_month y m + d
    <= 365 + (if Datetime._is_leap y then 1 else 0).
Proof.
  unfold Datetime.valid, Datetime._days_before_month, Datetime._days_in_month.
  intros H. repeat (apply andb_true_iff in H; destruct H as [H ?]).
  assert (Hm : 1 <= m <= 12) by lia.
  apply month_cases in Hm.
  remember (Datetime._is_leap y) as leap eqn:E. clear E.
  destruct leap; by_month Hm; month_tables; lia.
Qed.

Lemma days_before_next_year (y : Z) :
  Datetime._days_before_year (y + 1)
  = Datetime._days_before_year y + 365
    + (if Datetime._is_leap y then 1 else 0).
Proof.
  unfold Datetime._days_before_year, Datetime._is_leap. cbv zeta.
  replace (y + 1 - 1) with y by lia.
  destruct (Z.eqb_spec (y mod 4) 0); destruct (Z.eqb_spec (y mod 100) 0);
    destruct (Z.eqb_spec (y mod 400) 0); simpl;
    Z.to_euclidean_division_equations; lia.
Qed.

Lemma days_before_year_mono (y1 y2 : Z) :
  y1 <= y2 -> Datetime._days_before_year y1 <= Datetime._days_before_year y2.
Proof.
  unfold Datetime._days_before_year. cbv zeta.
  Z.to_euclidean_division_equations. lia.
Qed.

Lemma same_year_mono (y m1 d1 m2 d2 : Z) :
  Datetime.valid y m1 d1 = true ->
  Datetime.valid y m2 d2 = true ->
  m1 < m2 ->
  Datetime._days_before_month y m1 + d1
  < Datetime._days_before_month y m2 + d2.
Proof.
  unfold Datetime.valid, Datetime._days_before_month, Datetime._days_in_month.
  intros H1 H2 Hlt.
  repeat (apply andb_true_iff in H1; destruct H1 as [H1 ?]).
  repeat (apply andb_true_iff in H2; destruct H2 as [H2 ?]).
  assert (Hm1 : 1 <= m1 <= 12) by lia.
  assert (Hm2 : 1 <= m2 <= 12) by lia.
  apply month_cases in Hm1. apply month_cases in Hm2.
  remember (Datetime._is_leap y) as leap eqn:E. clear E.
  destruct leap; by_month Hm1; by_month Hm2; month_tables; lia.
Qed.

Lemma toordinal_le (a b : Datetime.datetime) :
  Datetime.valid (Datetime.year a) (Datetime.month a) (Datetime.day a) = true ->
  Datetime.valid (Datetime.year b) (Datetime.month b) (Datetime.day b) = true ->
  Datetime.le a b = true ->
  Datetime.toordinal a <= Datetime.toordinal b.
Proof.
  intros Ha Hb Hle. unfold Datetime.toordinal, Datetime._ymd2ord.
  destruct a as [ya ma da], b as [yb mb db]. simpl in *.
  pose proof (day_of_year_bounds _ _ _ Ha) as Ba.
  pose proof (day_of_year_bounds _ _ _ Hb) as Bb.
  unfold Datetime.le in Hle. simpl in Hle.
  apply orb_true_iff in Hle. destruct Hle as [Hy | Hle].
  - apply Z.ltb_lt in Hy.
    pose proof (days_before_next_year ya) as Hn.
    pose proof (days_before_year_mono (ya + 1) yb ltac:(lia)). lia.
  - apply andb_true_iff in Hle. destruct Hle as [Hy Hle].
    apply Z.eqb_eq in Hy. subst yb.
    apply orb_true_iff in Hle. destruct Hle as [Hm | Hle].
    + apply Z.ltb_lt in Hm.
      pose proof (same_year_mono _ _ _ _ _ Ha Hb Hm). lia.
    + apply andb_true_iff in Hle. destruct Hle as [Hm Hd].
      apply Z.eqb_eq in Hm. apply Z.leb_le in Hd. subst mb. lia.
Qed.

(** On an available room, a request whose check-out date is on or before
    its check-in date is confirmed, with a number of nights that is zero or
    negative. *)
Lemma create_booking_nonpositive_nights
  (now : string) (b : BookingRequest) (s : Server) (row0 : Room)
  (rest : list Room) (check_in check_out : Datetime.datetime) :
  rows_of (room_number b) (df s) = row0 :: rest ->
  is_available row0 = true ->
  Datetime.strptime (check_in_date b) = Some check_in ->
  Datetime.strptime (check_out_date b) = Some check_out ->
  Datetime.le check_out check_in = true ->
  exists s' resp,
    create_booking now b s = (s', Return resp)
    /\ booking_status resp = "Confirmed"
    /\ total_cost resp
       = (Price row0
          * float_of_int (Datetime.days_between check_out check_in))%float
    /\ Datetime.days_between check_out check_in <= 0.
Proof.
  intros Hrow Ha Hi Ho Hle.
  destruct (create_booking_confirms now b s row0 rest check_in check_out
              Hrow Ha Hi Ho) as (s' & resp & H1 & H2 & H3).
  exists s', resp. repeat (split; [assumption|]).
  pose proof (toordinal_le check_out check_in
                (strptime_valid _ _ Ho) (strptime_valid _ _ Hi) Hle).
  unfold Datetime.days_between. lia.
Qed.

Lemma toordinal_lt (a b : Datetime.datetime) :
  Datetime.valid (Datetime.year a) (Datetime.month a) (Datetime.day a) = true ->
  Datetime.valid (Datetime.year b) (Datetime.month b) (Datetime.day b) = true ->
  Datetime.le a b = false ->
  Datetime.toordinal b < Datetime.toordinal a.
Proof.
  intros Ha Hb Hle. unfold Datetime.toordinal, Datetime._ymd2ord.
  destruct a as [ya ma da], b as [yb mb db]. simpl in *.
  pose proof (day_of_year_bounds _ _ _ Ha) as Ba.
  pose proof (day_of_year_bounds _ _ _ Hb) as Bb.
  unfold Datetime.le in Hle. simpl in Hle.
  assert (Hc : yb < ya \/ (ya = yb /\ (mb < ma \/ (ma = mb /\ db < da))))
    by lia.
  destruct Hc as [Hy | [-> [Hm | [-> Hd]]]].
  - pose proof (days_before_next_year yb) as Hn.
    pose proof (days_before_year_mono (yb + 1) ya ltac:(lia)). lia.
  - pose proof (same_year_mono _ _ _ _ _ Hb Ha Hm). lia.
  - lia.
Qed.

Lemma le_antisym (a b : Datetime.datetime) :
  Datetime.le a b = true -> Datetime.le b a = true -> a = b.
Proof.
  unfold Datetime.le. destruct a as [ya ma da], b as [yb mb db]. simpl.
  intros H1 H2.
  assert (ya = yb /\ ma = mb /\ da = db) as (-> & -> & ->) by lia.
  reflexivity.
Qed.

(** ** The number of nights, counted on the calendar *)



















(** The nights of stays that cross the end of a month, the leap day and the
    end of a year, at the price 3500 of room 103. *)
Lemma create_booking_across_month_ends :
  (exists s' resp,
     create_booking Sample.now Cases.month_end Sample.server
     = (s', Return resp)
     /\ total_cost resp = 3500%float)
  /\ (exists s' resp,
        create_booking Sample.now Cases.over_leap_day Sample.server
        = (s', Return resp)
        /\ total_cost resp = 7000%float)
  /\ (exists s' resp,
        create_booking Sample.now Cases.new_year Sample.server
        = (s', Return resp)
        /\ total_cost resp = 3500%float)
  /\ Calendar.days_after 1 (Datetime.mkDate 2025 7 31)
     = Datetime.mkDate 2025 8 1
  /\ Calendar.days_after 2 (Datetime.mkDate 2024 2 28)
     = Datetime.mkDate 2024 3 1
  /\ Calendar.days_after 1 (Datetime.mkDate 2025 2 28)
     = Datetime.mkDate 2025 3 1
  /\ Calendar.days_after 1 (Datetime.mkDate 2025 12 31)
     = Datetime.mkDate 2026 1 1.
Proof.
  repeat split;
    try (eexists; eexists; split; [vm_compute; reflexivity | reflexivity]).
Qed.

(** C2, the behaviour of the code at the failing inputs. On the available
    room 103 (price 3500), a request whose check-out 2025-08-01 is earlier
    than its check-in 2025-08-04 is confirmed with total cost -10500 and
    books the room; a request whose two dates are equal is confirmed with
    total cost 0. *)
Theorem create_booking_accepts_reversed_dates :
  (exists s' resp,
     create_booking Sample.now Sample.reversed Sample.server
     = (s', Return resp)
     /\ booking_status resp = "Confirmed"
     /\ total_cost resp = (-10500)%float
     /\ In (mkRoom 103 "Standard" "Booked" "Guest_7" "" ""
                   "2025-08-04" "2025-08-01" 3500 "No") (df s'))
  /\ (exists s' resp,
        create_booking Sample.now Sample.same_day Sample.server
        = (s', Return resp)
        /\ booking_status resp = "Confirmed"
        /\ total_cost resp = 0%float).
Proof.
  split.
  - do 2 eexists. split; [vm_compute; reflexivity|].
    split; [reflexivity|]. split; [reflexivity|].
    right; right; left; reflexivity.
  - do 2 eexists. split; [vm_compute; reflexivity|].
    split; reflexivity.
Qed.

(** ** The listing with the upselling markup *)

Lemma nan_mul (p x : float) :
  PrimFloat.is_nan p = true -> PrimFloat.is_nan (p * x)%float = true.
Proof.
  intros H. unfold PrimFloat.is_nan.
  rewrite FloatAxioms.eqb_spec, FloatAxioms.mul_spec.
  assert (Hp : Prim2SF p = S754_nan)
    by (unfold Prim2SF; rewrite H; reflexivity).
  rewrite Hp. reflexivity.
Qed.

Lemma markup_fields (m : float) (r : Room) :
  is_reserved r = true ->
  getitem "Price" (json_markup m r)
  = Some (clean_float (Price r * (1 + m / 100))%float)
  /\ getitem "original_price" (json_markup m r)
     = Some (clean_float (Price r)).
Proof.
  intros H. unfold json_markup. rewrite H. split; reflexivity.
Qed.

(** C6, as amended. For every available room reserved for upselling and
    every markup percentage, [available_rooms_with_upselling] returns the
    room with, whenever the product is a number (not NaN), a price equal to
    the original price * (1 + markup / 100) in binary64 arithmetic and the
    original price beside it; a product that is NaN is returned as the empty
    string.  At original price 5000 and markup 15.0 the price is 5750.0 and
    [original_price] is 5000.0. *)
Theorem upsell_priced_listing (m : float) (s : Server) (r : Room) :
  In r (df s) ->
  is_available r = true ->
  is_reserved r = true ->
  exists rows d,
    available_rooms_with_upselling m s = Return rows
    /\ In d rows
    /\ getitem "Room Number" d = Some (VInt (Room_Number r))
    /\ (PrimFloat.is_nan (Price r * (1 + m / 100))%float = false ->
        getitem "Price" d = Some (VFloat (Price r * (1 + m / 100))%float)
        /\ getitem "original_price" d = Some (VFloat (Price r)))
    /\ (PrimFloat.is_nan (Price r * (1 + m / 100))%float = true ->
        getitem "Price" d = Some (VStr ""))
    /\ (Price r = 5000%float -> m = 15%float ->
        getitem "Price" d = Some (VFloat 5750)
        /\ getitem "original_price" d = Some (VFloat 5000)).
Proof.
  intros Hr Ha Hres.
  exists (map (json_markup m) (filter is_available (df s))),
         (json_markup m r).
  split; [apply available_rooms_with_upselling_eq|].
  split; [apply in_map; apply filter_In; split; assumption|].
  split; [apply number_json_markup|].
  destruct (markup_fields m r Hres) as [Hp Ho]. rewrite Hp, Ho.
  unfold clean_float. split; [|split].
  - intros Hn. rewrite Hn.
    destruct (PrimFloat.is_nan (Price r)) eqn:E;
      [rewrite (nan_mul _ _ E) in Hn; discriminate|].
    split; reflexivity.
  - intros Hn. rewrite Hn. reflexivity.
  - intros -> ->. split; reflexivity.
Qed.

Lemma upsell_priced_listing_witness :
  In Sample.room_102 (df Sample.server)
  /\ is_available Sample.room_102 = true
  /\ is_reserved Sample.room_102 = true
  /\ exists rows d,
       available_rooms_with_upselling 15 Sample.server = Return rows
       /\ In d rows
       /\ getitem "Room Number" d = Some (VInt 102)
       /\ (PrimFloat.is_nan (5000 * (1 + 15 / 100))%float = false ->
           getitem "Price" d = Some (VFloat (5000 * (1 + 15 / 100))%float)
           /\ getitem "original_price" d = Some (VFloat 5000))
       /\ (PrimFloat.is_nan (5000 * (1 + 15 / 100))%float = true ->
           getitem "Price" d = Some (VStr ""))
       /\ (5000%float = 5000%float -> 15%float = 15%float ->
           getitem "Price" d = Some (VFloat 5750)
           /\ getitem "original_price" d = Some (VFloat 5000)).
Proof.
  assert (Hin : In Sample.room_102 (df Sample.server))
    by (right; left; reflexivity).
  split; [exact Hin|]. split; [reflexivity|]. split; [reflexivity|].
  exact (upsell_priced_listing 15 Sample.server Sample.room_102
           Hin eq_refl eq_refl).
Defined.

(** C6 fails as stated: with a markup percentage that is NaN, the listing
    returns the available reserved room 102 with the empty string as its
    price, not a number. *)
Lemma upsell_nan_markup_blank_price :
  is_available Sample.room_102 = true
  /\ is_reserved Sample.room_102 = true
  /\ exists rows,
       available_rooms_with_upselling nan Sample.server = Return rows
       /\ lists_room 102 rows
       /\ forall d, In d rows ->
            getitem "Room Number" d = Some (VInt 102) ->
            getitem "Price" d = Some (VStr "")
            /\ getitem "Price" d
               <> Some (VFloat (5000 * (1 + nan / 100))%float).
Proof.
  split; [reflexivity|]. split; [reflexivity|].
  eexists. split; [vm_compute; reflexivity|]. split.
  - eexists. split; [left; reflexivity | reflexivity].
  - intros d Hd Hn. simpl in Hd.
    destruct Hd as [<- | [<- | []]]; vm_compute in Hn; try discriminate.
    split; [reflexivity | discriminate].
Qed.

(** ** The context analyzer *)

Import ContextAnalyzer.

(** On a text of ASCII characters lower-casing keeps the number of
    characters. *)
Lemma len_lower_isascii (x : string) :
  isascii x = true -> len (lower x) = len x.
Proof.
  intros _. unfold len. f_equal.
  induction x as [|c x IH]; simpl; [reflexivity|].
  rewrite IH. reflexivity.
Qed.

Lemma truthy_and_longer (n : Z) (x : string) :
  0 <= n -> truthy x && (n <? len x) = (n <? len x).
Proof.
  intros Hn. destruct x as [|c x]; [|reflexivity].
  simpl. symmetry. apply Z.ltb_ge. exact Hn.
Qed.

Ltac split_ifs :=
  repeat match goal with
         | |- context [if ?c then _ else _] => destruct c eqn:?
         end.

(** C8, as amended. For every guest record whose amenities-used text
    contains, in lower case, one of spa, massage, wellness, gym or fitness,
    the lifestyle bundle has wellness focus [high]; its activity level is
    [high] when the activities booked mention adventure, sports or hiking,
    otherwise [moderate-high] when the amenities also mention pool or
    swimming, and otherwise [high]. *)
Theorem lifestyle_of_wellness_amenities (g : GuestData) :
  any_in ["spa"; "massage"; "wellness"; "gym"; "fitness"]
         (lower (amenities_used g)) = true ->
  let lifestyle := lifestyle_profile (_perform_deep_context_analysis g) in
  wellness_focus lifestyle = "high"
  /\ activity_level lifestyle
     = if any_in ["adventure"; "sports"; "hiking"]
                 (lower (extra_activities_booked g))
       then "high"
       else if any_in ["pool"; "swimming"] (lower (amenities_used g))
            then "moderate-high"
            else "high".
Proof.
  intros H. cbv zeta.
  change (lifestyle_profile (_perform_deep_context_analysis g))
    with (_analyze_lifestyle (lower (profession g))
            (lower (amenities_used g))
            (lower (extra_activities_booked g))).
  generalize dependent (lower (amenities_used g)). intros a H.
  generalize (lower (extra_activities_booked g)). intros e.
  generalize (lower (profession g)). intros p.
  unfold _analyze_lifestyle, when. cbv beta zeta. rewrite H.
  destruct a as [|c a]; [discriminate H|].
  destruct e as [|c' e]; cbn [truthy];
    [change (any_in ["adventure"; "sports"; "hiking"] "") with false|];
    split_ifs; split; reflexivity.
Qed.

Lemma lifestyle_of_wellness_amenities_witness :
  any_in ["spa"; "massage"; "wellness"; "gym"; "fitness"]
         (lower (amenities_used Sample.gym_guest)) = true
  /\ wellness_focus
       (lifestyle_profile (_perform_deep_context_analysis Sample.gym_guest))
     = "high"
  /\ activity_level
       (lifestyle_profile (_perform_deep_context_analysis Sample.gym_guest))
     = if any_in ["adventure"; "sports"; "hiking"]
                 (lower (extra_activities_booked Sample.gym_guest))
       then "high"
       else if any_in ["pool"; "swimming"]
                      (lower (amenities_used Sample.gym_guest))
            then "moderate-high"
            else "high".
Proof.
  split; [reflexivity|].
  exact (lifestyle_of_wellness_amenities Sample.gym_guest eq_refl).
Defined.

(** C8 fails as stated: for a guest whose amenities are "Spa, Pool" the
    wellness keyword is present, yet the activity level is [moderate-high],
    not [high]: the pool rule runs after the wellness rule and overwrites
    it. *)
Lemma pool_lowers_activity_level :
  any_in ["spa"; "massage"; "wellness"; "gym"; "fitness"]
         (lower (amenities_used Sample.guest)) = true
  /\ wellness_focus
       (lifestyle_profile (_perform_deep_context_analysis Sample.guest))
     = "high"
  /\ activity_level
       (lifestyle_profile (_perform_deep_context_analysis Sample.guest))
     = "moderate-high"
  /\ activity_level
       (lifestyle_profile (_perform_deep_context_analysis Sample.guest))
     <> "high".
Proof. repeat split; try reflexivity. vm_compute. discriminate. Qed.

(** C9, as amended. For every guest record, the satisfaction bundle's
    attention to detail is [high] when the lower-cased special-requests
    text, which is the text the analyzer measures, is longer than 20
    characters, and [moderate] otherwise. *)
Theorem satisfaction_attention_to_detail (g : GuestData) :
  attention_to_detail
    (satisfaction_insights (_perform_deep_context_analysis g))
  = if 20 <? len (lower (special_requests g)) then "high" else "moderate".
Proof.
  change (attention_to_detail
            (satisfaction_insights (_perform_deep_context_analysis g)))
    with (if truthy (lower (special_requests g))
             && (20 <? len (lower (special_requests g)))
          then "high" else "moderate").
  rewrite truthy_and_longer by lia. reflexivity.
Qed.

(** The two-tier thresholds 30 and 10 are those of the personality bundle's
    detail orientation, on the same lower-cased text. *)
Lemma personality_detail_orientation (g : GuestData) :
  detail_orientation
    (personality_indicators (_perform_deep_context_analysis g))
  = if 30 <? len (lower (special_requests g)) then "high"
    else if 10 <? len (lower (special_requests g)) then "moderate-high"
    else "moderate".
Proof.
  change (detail_orientation
            (personality_indicators (_perform_deep_context_analysis g)))
    with (if truthy (lower (special_requests g))
             && (30 <? len (lower (special_requests g)))
          then "high"
          else if truthy (lower (special_requests g))
                  && (10 <? len (lower (special_requests g)))
               then "moderate-high" else "moderate").
  rewrite !truthy_and_longer by lia. reflexivity.
Qed.

(** C9 fails as stated: a special-requests text of 26 ASCII characters (26
    again when lower-cased), longer than 10 and at most 30, gives attention
    to detail [high], not [moderate-high]. *)
Lemma attention_to_detail_26_chars :
  len (special_requests Sample.guest) = 26
  /\ isascii (special_requests Sample.guest) = true
  /\ len (lower (special_requests Sample.guest)) = 26
  /\ attention_to_detail
       (satisfaction_insights (_perform_deep_context_analysis Sample.guest))
     = "high"
  /\ attention_to_detail
       (satisfaction_insights (_perform_deep_context_analysis Sample.guest))
     <> "moderate-high".
Proof. repeat split; try reflexivity. vm_compute. discriminate. Qed.

(** ** Evaluations on concrete inputs *)

Example strptime_iso :
  Datetime.strptime "2025-07-10" = Some (Datetime.mkDate 2025 7 10).
Proof. reflexivity. Qed.

Example strptime_unpadded :
  Datetime.strptime "2025-7-1" = Some (Datetime.mkDate 2025 7 1).
Proof. reflexivity. Qed.

Example strptime_bad_day : Datetime.strptime "2025-02-29" = None.
Proof. reflexivity. Qed.

Example strptime_leap_day :
  Datetime.strptime "2024-02-29" = Some (Datetime.mkDate 2024 2 29).
Proof. reflexivity. Qed.

Example strptime_trailing : Datetime.strptime "2025-07-101" = None.
Proof. reflexivity. Qed.

Example strptime_month_13 : Datetime.strptime "2025-13-01" = None.
Proof. reflexivity. Qed.

Example toordinal_2025_07_10 :
  Datetime.toordinal (Datetime.mkDate 2025 7 10) = 739442.
Proof. reflexivity. Qed.

Example str_int_examples :
  Py.str_int 0 = "0" /\ Py.str_int 42 = "42" /\ Py.str_int (-7) = "-7".
Proof. repeat split. Qed.

Example lower_mixed_case : lower "AvAiLaBlE" = "available".
Proof. reflexivity. Qed.

Example contains_substring :
  contains "suite" "ensuite" = true /\ contains "spa" "gym, pool" = false.
Proof. split; reflexivity. Qed.

Example le_same_day :
  Datetime.le (Datetime.mkDate 2025 7 10) (Datetime.mkDate 2025 7 10) = true
  /\ Datetime.le (Datetime.mkDate 2025 7 10) (Datetime.mkDate 2025 7 9)
     = false.
Proof. split; reflexivity. Qed.

Example available_rooms_sample :
  available_rooms Sample.server = Return [json_row Sample.room_103].
Proof. reflexivity. Qed.

Example available_rooms_for_dates_sample :
  available_rooms_for_dates "2025-07-10" "2025-07-12" Sample.server
  = Return [json_row Sample.room_101; json_row Sample.room_103]
  /\ available_rooms_for_dates "2025-07-09" "2025-07-12" Sample.server
     = Return [json_row Sample.room_103]
  /\ available_rooms_for_dates "10/07/2025" "2025-07-12" Sample.server
     = HTTPException 400 "Invalid date format. Use YYYY-MM-DD".
Proof. repeat split; reflexivity. Qed.

Example create_booking_errors :
  snd (create_booking Sample.now
         (mkBookingRequest 7 999 "2025-08-01" "2025-08-04" 2 "Leisure")
         Sample.server)
  = HTTPException 404 "Room 999 not found"
  /\ snd (create_booking Sample.now
            (mkBookingRequest 7 101 "2025-08-01" "2025-08-04" 2 "Leisure")
            Sample.server)
     = HTTPException 400 "Room is not available".
Proof. split; reflexivity. Qed.

Example markup_rounding :
  (5000 * (1 + 15 / 100))%float = 5750%float
  /\ (100 * (1 + 15 / 100))%float <> 115%float.
Proof. split; [reflexivity | vm_compute; discriminate]. Qed.

Example analysis_sample :
  let a := _perform_deep_context_analysis Sample.guest in
  room_category (room_preferences a) = "premium"
  /\ special_needs (room_preferences a)
     = ["noise_sensitive"; "floor_preference"]
  /\ social_preference (lifestyle_profile a) = "high"
  /\ overall_sentiment (satisfaction_insights a) = "positive"
  /\ spending_category (loyalty_behavior a) = "moderate-high"
  /\ retention_probability (loyalty_behavior a) = "moderate-high"
  /\ service_usage_level (service_patterns a) = "moderate-high"
  /\ detail_orientation (personality_indicators a) = "moderate-high".
Proof. repeat split; reflexivity. Qed.

(** ** Further properties of the booking server *)

Import Queries Frames.

Lemma rows_of_assign (n : Z) (set : Room -> Room) (l : list Room) :
  (forall r, Room_Number (set r) = Room_Number r) ->
  rows_of n (assign n set l) = map set (rows_of n l).
Proof.
  intros Hset. unfold rows_of, assign.
  induction l as [|r l IH]; simpl; [reflexivity|].
  destruct (Room_Number r =? n) eqn:E.
  - rewrite Hset, E. simpl. rewrite IH. reflexivity.
  - rewrite E. exact IH.
Qed.

Lemma assign_assign (n : Z) (f g : Room -> Room) (l : list Room) :
  (forall r, Room_Number (f r) = Room_Number r) ->
  assign n g (assign n f l) = assign n (fun r => g (f r)) l.
Proof.
  intros Hf. unfold assign. rewrite map_map. apply map_ext. intros r.
  destruct (Room_Number r =? n) eqn:E.
  - rewrite Hf, E. reflexivity.
  - rewrite E. reflexivity.
Qed.

Lemma assign_ext_in (n : Z) (f g : Room -> Room) (l : list Room) :
  (forall r, In r l -> Room_Number r = n -> f r = g r) ->
  assign n f l = assign n g l.
Proof.
  intros H. unfold assign. apply map_ext_in. intros r Hr.
  destruct (Z.eqb_spec (Room_Number r) n); [apply H; assumption|].
  reflexivity.
Qed.

Lemma assign_fixed (n : Z) (f : Room -> Room) (l : list Room) :
  (forall r, In r l -> Room_Number r = n -> f r = r) -> assign n f l = l.
Proof.
  intros H. rewrite <- (map_id l) at 2. unfold assign.
  apply map_ext_in. intros r Hr.
  destruct (Z.eqb_spec (Room_Number r) n); [apply H; assumption|].
  reflexivity.
Qed.

Lemma rows_of_head (n : Z) (l : list Room) (row0 : Room) (rest : list Room) :
  rows_of n l = row0 :: rest -> In row0 l /\ Room_Number row0 = n.
Proof.
  intros H.
  assert (H0 : In row0 (rows_of n l)) by (rewrite H; left; reflexivity).
  unfold rows_of in H0. apply filter_In in H0. destruct H0 as [H0 H1].
  split; [exact H0 | apply Z.eqb_eq; exact H1].
Qed.

Lemma rows_of_empty (n : Z) (s : Server) :
  rows_of n (df s) = [] <-> ~ room_exists n s.
Proof.
  unfold room_exists. rewrite <- rows_of_nonempty. split.
  - intros E Hc. apply Hc. exact E.
  - intros Hc. destruct (rows_of n (df s)); [reflexivity|].
    exfalso. apply Hc. discriminate.
Qed.

(** X1. The six endpoints that address one room answer with the 404
    "Room n not found" exactly when no row of the ledger has that number,
    and the three that write (booking, update, cancel) then leave the
    server state as it was. *)
Theorem room_not_found_iff
  (now : string) (b : BookingRequest) (p : RoomUpdate) (s : Server) :
  let n := room_number b in
  (snd (create_booking now b s) = not_found n <-> ~ room_exists n s)
  /\ (snd (update_guest n p s) = not_found n <-> ~ room_exists n s)
  /\ (snd (cancel_booking n s) = not_found n <-> ~ room_exists n s)
  /\ (room_details n s = not_found n <-> ~ room_exists n s)
  /\ (room_availability n s = not_found n <-> ~ room_exists n s)
  /\ (room_price n s = not_found n <-> ~ room_exists n s)
  /\ (~ room_exists n s ->
      fst (create_booking now b s) = s
      /\ fst (update_guest n p s) = s
      /\ fst (cancel_booking n s) = s).
Proof.
  cbv zeta. rewrite <- (rows_of_empty (room_number b) s).
  unfold create_booking, update_guest, cancel_booking, room_details,
    room_availability, room_price.
  destruct (rows_of (room_number b) (df s)) as [|row0 rest] eqn:E.
  - repeat split; reflexivity.
  - assert (Hd : _json_ready [to_dict row0] = Some [json_row row0])
      by apply (_json_ready_rows [row0]).
    rewrite Hd.
    destruct (negb (is_available row0));
      [|destruct (Datetime.strptime (check_out_date b));
        [destruct (Datetime.strptime (check_in_date b))|]];
      simpl; repeat split; intros;
      match goal with H : _ = _ |- _ => discriminate H end.
Qed.

(** X2. Once [create_booking] has confirmed a booking of a room, every
    further [create_booking] for that room number is refused with the 400
    "Room is not available" and leaves the state untouched. *)
Theorem second_booking_refused
  (now now' : string) (b b' : BookingRequest) (s s' : Server)
  (resp : BookingResponse) :
  create_booking now b s = (s', Return resp) ->
  room_number b' = room_number b ->
  create_booking now' b' s' = (s', HTTPException 400 "Room is not available").
Proof.
  intros H Hn. apply create_booking_return in H.
  destruct H as (row0 & rest & ci & co & Hrow & _ & _ & _ & Hdf & _).
  unfold create_booking. rewrite Hn, Hdf.
  rewrite rows_of_assign by reflexivity. rewrite Hrow. simpl.
  reflexivity.
Qed.

Lemma second_booking_refused_witness :
  create_booking Sample.now Sample.three_nights Sample.server
  = (Sample.booked, Return Sample.confirmation)
  /\ room_number Cases.second = room_number Sample.three_nights
  /\ create_booking Sample.now Cases.second Sample.booked
     = (Sample.booked, HTTPException 400 "Room is not available").
Proof.
  split; [exact create_booking_sample|]. split; [reflexivity|].
  exact (second_booking_refused Sample.now Sample.now Sample.three_nights
           Cases.second Sample.server Sample.booked Sample.confirmation
           create_booking_sample eq_refl).
Defined.

(** X3. When the room is available and one of the two dates of the request
    does not parse, [create_booking] ends in an uncaught [ValueError] after
    it has marked the room: every row of that number is [Booked] for
    [Guest_<id>] in memory, the file is not rewritten, and a later
    [create_booking] for the room is refused with the 400. *)
Theorem create_booking_bad_date
  (now : string) (b : BookingRequest) (s : Server) (row0 : Room)
  (rest : list Room) :
  rows_of (room_number b) (df s) = row0 :: rest ->
  is_available row0 = true ->
  Datetime.strptime (check_in_date b) = None
  \/ Datetime.strptime (check_out_date b) = None ->
  exists s',
    create_booking now b s = (s', Uncaught ValueError)
    /\ csv s' = csv s
    /\ (forall r, In r (df s') -> Room_Number r = room_number b ->
         Availability r = "Booked"
         /\ Name_of_Guest r = "Guest_" ++ str_int (guest_id b))
    /\ (forall now' b', room_number b' = room_number b ->
         create_booking now' b' s'
         = (s', HTTPException 400 "Room is not available")).
Proof.
  intros Hrow Ha Hbad.
  exists {| df := assign (room_number b) (book b) (df s); csv := csv s |}.
  split; [|split; [reflexivity|split]].
  - unfold create_booking. rewrite Hrow, Ha. simpl.
    destruct Hbad as [Hi | Ho].
    + rewrite Hi. destruct (Datetime.strptime (check_out_date b));
        reflexivity.
    + rewrite Ho. reflexivity.
  - simpl. intros r Hr Hn. apply in_assign in Hr.
    destruct Hr as [r0 [_ [[_ ->] | [Hne ->]]]]; [|contradiction].
    split; reflexivity.
  - intros now' b' Hn. unfold create_booking. simpl. rewrite Hn.
    rewrite rows_of_assign by reflexivity. rewrite Hrow. reflexivity.
Qed.

Lemma create_booking_bad_date_witness :
  rows_of 103 (df Sample.server) = [Sample.room_103]
  /\ is_available Sample.room_103 = true
  /\ (Datetime.strptime "2025-08-01" = None
      \/ Datetime.strptime "04/08/2025" = None)
  /\ exists s',
       create_booking Sample.now Cases.bad_date Sample.server
       = (s', Uncaught ValueError)
       /\ csv s' = csv Sample.server
       /\ (forall r, In r (df s') -> Room_Number r = 103 ->
            Availability r = "Booked"
            /\ Name_of_Guest r = "Guest_" ++ str_int 7)
       /\ (forall now' b', room_number b' = 103 ->
            create_booking now' b' s'
            = (s', HTTPException 400 "Room is not available")).
Proof.
  split; [reflexivity|]. split; [reflexivity|].
  split; [right; reflexivity|].
  exact (create_booking_bad_date Sample.now Cases.bad_date Sample.server
           Sample.room_103 [] eq_refl eq_refl (or_intror eq_refl)).
Defined.



(** X5. [cancel_booking] is idempotent: cancelling the booking of a room a
    second time gives the same answer and the same state as the first
    time. *)
Theorem cancel_booking_idempotent (n : Z) (s : Server) :
  cancel_booking n (fst (cancel_booking n s)) = cancel_booking n s.
Proof.
  unfold cancel_booking at 2.
  destruct (rows_of n (df s)) as [|row0 rest] eqn:E; simpl.
  - unfold cancel_booking. rewrite E. reflexivity.
  - unfold cancel_booking. simpl.
    rewrite rows_of_assign by reflexivity. rewrite E. simpl.
    rewrite assign_assign by reflexivity.
    rewrite (assign_ext_in n (fun r => clear (clear r)) clear)
      by reflexivity.
    reflexivity.
Qed.

(** X6. Booking and then cancelling restores the server state, when the
    state was saved and the rows of the room were in the cleared form (the
    text [Available] and empty guest, people, facility and date columns). *)
Theorem book_then_cancel_restores
  (now : string) (b : BookingRequest) (s s' : Server)
  (resp : BookingResponse) :
  create_booking now b s = (s', Return resp) ->
  csv s = df s ->
  (forall r, In r (df s) -> Room_Number r = room_number b -> clear r = r) ->
  fst (cancel_booking (room_number b) s') = s.
Proof.
  intros H Hsaved Hclear. apply create_booking_return in H.
  destruct H as (row0 & rest & ci & co & Hrow & _ & _ & _ & Hdf & _).
  unfold cancel_booking. rewrite Hdf.
  rewrite rows_of_assign by reflexivity. rewrite Hrow. simpl.
  rewrite assign_assign by reflexivity.
  rewrite (assign_fixed _ _ (df s))
    by (intros r Hr Hn; change (clear (book b r)) with (clear r);
        apply Hclear; auto).
  destruct s as [rows saved]. simpl in *. rewrite Hsaved. reflexivity.
Qed.

Lemma book_then_cancel_restores_witness :
  create_booking Sample.now Sample.three_nights Sample.server
  = (Sample.booked, Return Sample.confirmation)
  /\ csv Sample.server = df Sample.server
  /\ (forall r, In r (df Sample.server) -> Room_Number r = 103 ->
       clear r = r)
  /\ fst (cancel_booking 103 Sample.booked) = Sample.server.
Proof.
  assert (Hc : forall r, In r (df Sample.server) -> Room_Number r = 103 ->
                         clear r = r).
  { intros r Hr Hn. simpl in Hr.
    destruct Hr as [<- | [<- | [<- | [<- | []]]]];
      solve [reflexivity | discriminate Hn]. }
  split; [exact create_booking_sample|]. split; [reflexivity|].
  split; [exact Hc|].
  exact (book_then_cancel_restores Sample.now Sample.three_nights
           Sample.server Sample.booked Sample.confirmation
           create_booking_sample eq_refl Hc).
Defined.

Lemma kept_refl (n : Z) (l : list Room) : Forall2 (kept n) l l.
Proof.
  induction l; constructor; [repeat split; reflexivity | assumption].
Qed.

Lemma kept_set (n : Z) (set : Room -> Room) :
  (forall r, Room_Number (set r) = Room_Number r
             /\ Room_Type (set r) = Room_Type r
             /\ Price (set r) = Price r
             /\ reserved_for_upselling (set r) = reserved_for_upselling r) ->
  forall r, Room_Number r = n -> kept n r (set r).
Proof.
  intros H r Hn. destruct (H r) as (H1 & H2 & H3 & H4).
  repeat split; try assumption. intros Hne. contradiction.
Qed.

Lemma kept_assign_set (n : Z) (set : Room -> Room) (l : list Room) :
  (forall r, Room_Number (set r) = Room_Number r
             /\ Room_Type (set r) = Room_Type r
             /\ Price (set r) = Price r
             /\ reserved_for_upselling (set r) = reserved_for_upselling r) ->
  Forall2 (kept n) l (assign n set l).
Proof.
  intros H. unfold assign. induction l as [|r l IH]; simpl.
  - constructor.
  - constructor; [|exact IH].
    destruct (Z.eqb_spec (Room_Number r) n) as [E | E].
    + apply kept_set; assumption.
    + repeat split; reflexivity.
Qed.

(** X7. No operation creates or deletes a room or touches another room:
    after [create_booking], [update_guest] or [cancel_booking] on room [n],
    whatever the outcome, the ledger has the same rows in the same order,
    each with its number, type, price and upselling flag, rows of other
    numbers are unchanged, and [root] reports the same [total_rooms]. *)
Theorem operations_keep_the_rooms (s : Server) :
  (forall now b,
     Forall2 (kept (room_number b)) (df s) (df (fst (create_booking now b s)))
     /\ root (fst (create_booking now b s)) = root s)
  /\ (forall n p,
        Forall2 (kept n) (df s) (df (fst (update_guest n p s)))
        /\ root (fst (update_guest n p s)) = root s)
  /\ (forall n,
        Forall2 (kept n) (df s) (df (fst (cancel_booking n s)))
        /\ root (fst (cancel_booking n s)) = root s).
Proof.
  assert (Hroot : forall n l, Forall2 (kept n) (df s) l ->
            forall c, root {| df := l; csv := c |} = root s).
  { intros n l H c. unfold root. simpl.
    rewrite (Forall2_length H). reflexivity. }
  split; [|split].
  - intros now b.
    assert (H : Forall2 (kept (room_number b)) (df s)
                  (assign (room_number b) (book b) (df s)))
      by (apply kept_assign_set; intros r; repeat split; reflexivity).
    unfold create_booking.
    destruct (rows_of (room_number b) (df s));
      [split; [apply kept_refl | reflexivity]|].
    destruct (negb (is_available r));
      [split; [apply kept_refl | reflexivity]|].
    destruct (Datetime.strptime (check_out_date b));
      [destruct (Datetime.strptime (check_in_date b))|];
      simpl; (split; [exact H | exact (Hroot _ _ H _)]).
  - intros n p. unfold update_guest.
    destruct (rows_of n (df s)) as [|row0 rest];
      [split; [apply kept_refl | reflexivity]|].
    assert (H : Forall2 (kept n) (df s)
                  (assign n (update p row0) (df s)))
      by (apply kept_assign_set; intros r; repeat split; reflexivity).
    simpl. split; [exact H | exact (Hroot _ _ H _)].
  - intros n. unfold cancel_booking.
    destruct (rows_of n (df s));
      [split; [apply kept_refl | reflexivity]|].
    assert (H : Forall2 (kept n) (df s) (assign n clear (df s)))
      by (apply kept_assign_set; intros r0; repeat split; reflexivity).
    simpl. split; [exact H | exact (Hroot _ _ H _)].
Qed.

Lemma or_filled (a b : string) :
  truthy b = true -> truthy (or_ a b) = true.
Proof. unfold or_. destruct (truthy a) eqn:E; [intros _; exact E | auto]. Qed.

(** X8. [update_guest] can fill or replace the six columns it writes but
    never empties one: a column that is non-empty in the first row of the
    room is non-empty, after the update, in every row of that room. *)
Theorem update_guest_never_clears
  (n : Z) (p : RoomUpdate) (s : Server) (row0 : Room) (rest : list Room)
  (r : Room) :
  rows_of n (df s) = row0 :: rest ->
  In r (df (fst (update_guest n p s))) ->
  Room_Number r = n ->
  keeps_filled row0 r.
Proof.
  intros Hrow Hr Hn. unfold update_guest in Hr. rewrite Hrow in Hr.
  simpl in Hr. apply in_assign in Hr.
  destruct Hr as [r0 [_ [[_ ->] | [Hne ->]]]]; [|contradiction].
  unfold keeps_filled, update. simpl.
  repeat split; apply or_filled.
Qed.

Lemma update_guest_never_clears_witness :
  rows_of 101 (df Sample.server) = [Sample.room_101]
  /\ In (mkRoom 101 "Deluxe" "Available" "Guest_7" "2" "" "2025-07-01"
                "2025-07-10" 4200 "No")
        (df (fst (update_guest 101 (Staff.room_data 101) Sample.server)))
  /\ keeps_filled Sample.room_101
       (mkRoom 101 "Deluxe" "Available" "Guest_7" "2" "" "2025-07-01"
               "2025-07-10" 4200 "No").
Proof.
  assert (Hin : In (mkRoom 101 "Deluxe" "Available" "Guest_7" "2" ""
                           "2025-07-01" "2025-07-10" 4200 "No")
                   (df (fst (update_guest 101 (Staff.room_data 101)
                                          Sample.server))))
    by (left; reflexivity).
  split; [reflexivity|]. split; [exact Hin|].
  exact (update_guest_never_clears 101 (Staff.room_data 101) Sample.server
           Sample.room_101 [] _ eq_refl Hin eq_refl).
Defined.

(** X9. The status update by which the staff interface frees a room
    (availability [Available], every other field empty) succeeds and makes
    every row of the room [Available], but the guest name, the number of
    people, the extra facility and the two dates stay those of the room's
    first row; when that guest name is not empty the ledger then breaks the
    invariant of the room records. *)
Theorem staff_free_room_keeps_guest
  (n : Z) (s : Server) (row0 : Room) (rest : list Room) :
  rows_of n (df s) = row0 :: rest ->
  exists s' msg,
    update_status n (Staff.room_data n) s = (s', Return msg)
    /\ (forall r, In r (df s') -> Room_Number r = n ->
         Availability r = "Available"
         /\ Name_of_Guest r = Name_of_Guest row0
         /\ Number_of_People r = Number_of_People row0
         /\ Extra_Facility r = Extra_Facility row0
         /\ Check_in_Date r = Check_in_Date row0
         /\ Check_out_Date r = Check_out_Date row0)
    /\ (truthy (Name_of_Guest row0) = true -> ~ ledger_invariant s').
Proof.
  intros Hrow. unfold update_status, update_guest. rewrite Hrow.
  do 2 eexists. split; [reflexivity|]. simpl.
  assert (Hall : forall r,
            In r (assign n (update (Staff.room_data n) row0) (df s)) ->
            Room_Number r = n ->
            r = update (Staff.room_data n) row0 r
            \/ exists r0, r = update (Staff.room_data n) row0 r0).
  { intros r Hr Hn. apply in_assign in Hr.
    destruct Hr as [r0 [_ [[_ ->] | [Hne ->]]]]; [|contradiction].
    right. exists r0. reflexivity. }
  split.
  - intros r Hr Hn. destruct (Hall r Hr Hn) as [-> | [r0 ->]];
      repeat split; reflexivity.
  - intros Hg Hinv. unfold ledger_invariant in Hinv. simpl in Hinv.
    rewrite Forall_forall in Hinv.
    assert (Hin0 : In row0 (df s) /\ Room_Number row0 = n).
    { assert (H0 : In row0 (rows_of n (df s)))
        by (rewrite Hrow; left; reflexivity).
      unfold rows_of in H0. apply filter_In in H0.
      destruct H0 as [H0 H1]. split; [exact H0 | apply Z.eqb_eq; exact H1]. }
    destruct Hin0 as [Hin0 Hn0].
    assert (Hin : In (update (Staff.room_data n) row0 row0)
                     (assign n (update (Staff.room_data n) row0) (df s))).
    { apply in_assign. exists row0. split; [exact Hin0|].
      left. split; [exact Hn0 | reflexivity]. }
    destruct (Hinv _ Hin) as [Hfwd _].
    destruct (Hfwd eq_refl) as [Hname _]. simpl in Hname.
    unfold or_ in Hname. simpl in Hname.
    rewrite Hname in Hg. discriminate Hg.
Qed.

Lemma staff_free_room_keeps_guest_witness :
  rows_of 101 (df Sample.server) = [Sample.room_101]
  /\ exists s' msg,
       update_status 101 (Staff.room_data 101) Sample.server
       = (s', Return msg)
       /\ (forall r, In r (df s') -> Room_Number r = 101 ->
            Availability r = "Available"
            /\ Name_of_Guest r = Name_of_Guest Sample.room_101
            /\ Number_of_People r = Number_of_People Sample.room_101
            /\ Extra_Facility r = Extra_Facility Sample.room_101
            /\ Check_in_Date r = Check_in_Date Sample.room_101
            /\ Check_out_Date r = Check_out_Date Sample.room_101)
       /\ (truthy (Name_of_Guest Sample.room_101) = true ->
           ~ ledger_invariant s').
Proof.
  split; [reflexivity|].
  exact (staff_free_room_keeps_guest 101 Sample.server Sample.room_101 []
           eq_refl).
Defined.

(** X10. After [create_booking] has confirmed a booking, the availability
    check of that room answers [available = False], with status [Booked]
    and [Guest_<id>] as current guest, and with the type and price of the
    room's first row. *)
Theorem room_availability_after_booking
  (now : string) (b : BookingRequest) (s s' : Server)
  (resp : BookingResponse) :
  create_booking now b s = (s', Return resp) ->
  exists row0 rest info,
    rows_of (room_number b) (df s) = row0 :: rest
    /\ room_availability (room_number b) s' = Return info
    /\ info_room_number info = room_number b
    /\ available info = false
    /\ availability_status info = "Booked"
    /\ current_guest info = Some ("Guest_" ++ str_int (guest_id b))
    /\ info_room_type info = Room_Type row0
    /\ info_price info = Price row0
    /\ info_reserved_for_upselling info = reserved_for_upselling row0.
Proof.
  intros H. apply create_booking_return in H.
  destruct H as (row0 & rest & ci & co & Hrow & _ & _ & _ & Hdf & _).
  unfold room_availability. rewrite Hdf.
  rewrite rows_of_assign by reflexivity. rewrite Hrow. simpl.
  exists row0, rest. eexists. split; [reflexivity|].
  split; [reflexivity|]. repeat split; reflexivity.
Qed.

Lemma room_availability_after_booking_witness :
  create_booking Sample.now Sample.three_nights Sample.server
  = (Sample.booked, Return Sample.confirmation)
  /\ exists row0 rest info,
       rows_of 103 (df Sample.server) = row0 :: rest
       /\ room_availability 103 Sample.booked = Return info
       /\ info_room_number info = 103
       /\ available info = false
       /\ availability_status info = "Booked"
       /\ current_guest info = Some ("Guest_" ++ str_int 7)
       /\ info_room_type info = Room_Type row0
       /\ info_price info = Price row0
       /\ info_reserved_for_upselling info = reserved_for_upselling row0.
Proof.
  split; [exact create_booking_sample|].
  exact (room_availability_after_booking Sample.now Sample.three_nights
           Sample.server Sample.booked Sample.confirmation
           create_booking_sample).
Defined.

(** X11. After [cancel_booking] of an existing room, the availability check
    of that room answers [available = True], with status [Available] and no
    current guest, whatever the room held before. *)
Theorem room_availability_after_cancel (n : Z) (s : Server) :
  room_exists n s ->
  exists info,
    room_availability n (fst (cancel_booking n s)) = Return info
    /\ available info = true
    /\ availability_status info = "Available"
    /\ current_guest info = None.
Proof.
  intros He. rewrite (cancel_booking_return n s He). simpl.
  apply rows_of_nonempty in He. unfold room_availability. simpl.
  rewrite rows_of_assign by reflexivity.
  destruct (rows_of n (df s)) as [|row0 rest]; [contradiction|]. simpl.
  eexists. split; [reflexivity|]. repeat split; reflexivity.
Qed.

Lemma room_availability_after_cancel_witness :
  room_exists 101 Sample.server
  /\ exists info,
       room_availability 101 (fst (cancel_booking 101 Sample.server))
       = Return info
       /\ available info = true
       /\ availability_status info = "Available"
       /\ current_guest info = None.
Proof.
  assert (He : room_exists 101 Sample.server).
  { exists Sample.room_101. split; [left; reflexivity | reflexivity]. }
  split; [exact He|].
  exact (room_availability_after_cancel 101 Sample.server He).
Defined.

Lemma rows_of_unique (n : Z) (l : list Room) (r : Room) :
  NoDup (map Room_Number l) -> In r l -> Room_Number r = n ->
  rows_of n l = [r].
Proof.
  intros Hnd Hr Hn. unfold rows_of.
  induction l as [|x l IH]; simpl in *; [contradiction|].
  inversion Hnd as [|? ? Hnotin Hnd']; subst.
  destruct Hr as [-> | Hr].
  - rewrite Z.eqb_refl. f_equal.
    assert (Hnone : forall y, In y l -> (Room_Number y =? Room_Number r)
                                         = false).
    { intros y Hy. apply Z.eqb_neq. intros E. apply Hnotin.
      rewrite <- E. apply in_map. exact Hy. }
    clear -Hnone. induction l as [|y l IH]; simpl; [reflexivity|].
    rewrite (Hnone y) by (left; reflexivity).
    apply IH. intros z Hz. apply Hnone. right. exact Hz.
  - destruct (Z.eqb_spec (Room_Number x) (Room_Number r)) as [E | E].
    + exfalso. apply Hnotin. rewrite E. apply in_map. exact Hr.
    + apply IH; auto.
Qed.

(** X12. The availability check and the listings agree: when the check of
    room [n] answers [available = True], the listing that includes the
    rooms reserved for upselling contains [n]; and in a ledger whose room
    numbers are all different the converse holds, so a room is listed there
    exactly when its check answers [True]. *)
Theorem availability_check_agrees_with_listing
  (n : Z) (s : Server) (m : float) (info : Availability_info) :
  room_availability n s = Return info ->
  exists rows,
    available_rooms_with_upselling m s = Return rows
    /\ (available info = true -> lists_room n rows)
    /\ (NoDup (map Room_Number (df s)) ->
        lists_room n rows -> available info = true).
Proof.
  intros H. unfold room_availability in H.
  destruct (rows_of n (df s)) as [|row0 rest] eqn:Hrow; [discriminate|].
  injection H as <-. simpl.
  destruct (rows_of_head _ _ _ _ Hrow) as [Hin Hn].
  eexists. split; [apply available_rooms_with_upselling_eq|].
  rewrite lists_room_json_markup. split.
  - intros Ha. exists row0. split; [|exact Hn].
    apply filter_In. split; [exact Hin | exact Ha].
  - intros Hnd [r [Hr Hrn]]. apply filter_In in Hr. destruct Hr as [Hr Ha].
    rewrite (rows_of_unique n (df s) r Hnd Hr Hrn) in Hrow.
    injection Hrow as <- _. exact Ha.
Qed.

Lemma availability_check_agrees_with_listing_witness :
  room_availability 102 Sample.server
  = Return (mkAvailability_info 102 true "Suite" 5000 "Available" None "Yes")
  /\ exists rows,
       available_rooms_with_upselling 15 Sample.server = Return rows
       /\ (true = true -> lists_room 102 rows)
       /\ (NoDup (map Room_Number (df Sample.server)) ->
           lists_room 102 rows -> true = true).
Proof.
  split; [reflexivity|].
  exact (availability_check_agrees_with_listing 102 Sample.server 15
           (mkAvailability_info 102 true "Suite" 5000 "Available" None "Yes")
           eq_refl).
Defined.

Lemma filter_nil_iff {A : Type} (f : A -> bool) (l : list A) :
  filter f l = [] <-> forall x, In x l -> f x = false.
Proof.
  induction l as [|x l IH]; simpl.
  - split; [intros _ y [] | reflexivity].
  - destruct (f x) eqn:E.
    + split; [discriminate|]. intros H.
      rewrite (H x (or_introl eq_refl)) in E. discriminate.
    + rewrite IH. split.
      * intros H y [<- | Hy]; [exact E | apply H; exact Hy].
      * intros H y Hy. apply H. right. exact Hy.
Qed.

(** X13. On a ledger whose room types are ASCII texts and for a requested
    type that is an ASCII text (where the lower-casing of the model is that
    of [str.lower]), [rooms_by_type] compares the type without regard to
    case and never returns an empty list: it answers with the 404
    "No <type> rooms found" exactly when no room has the type, and
    otherwise returns the non-empty list of the rooms of that type, the same
    for every ASCII spelling of the type that differs only in case. *)
Theorem rooms_by_type_answers (room_type : string) (s : Server) :
  isascii room_type = true ->
  (forall r, In r (df s) -> isascii (Room_Type r) = true) ->
  (rooms_by_type room_type s
   = HTTPException 404 ("No " ++ room_type ++ " rooms found")
   <-> forall r, In r (df s) -> of_type room_type r = false)
  /\ ((exists r, In r (df s) /\ of_type room_type r = true) ->
      exists rows,
        rooms_by_type room_type s = Return rows
        /\ rows <> []
        /\ _json_ready (map to_dict (filter (of_type room_type) (df s)))
           = Some rows
        /\ forall t, isascii t = true -> lower t = lower room_type ->
             rooms_by_type t s = Return rows).
Proof.
  intros _ _.
  assert (Heq : forall t, rooms_by_type t s
            = match filter (of_type t) (df s) with
              | [] => HTTPException 404 ("No " ++ t ++ " rooms found")
              | _ :: _ => Return (map json_row (filter (of_type t) (df s)))
              end).
  { intros t. unfold rooms_by_type. fold (of_type t).
    destruct (filter (of_type t) (df s)) as [|r l] eqn:E; [reflexivity|].
    rewrite _json_ready_rows. reflexivity. }
  split.
  - rewrite Heq, <- filter_nil_iff.
    destruct (filter (of_type room_type) (df s)); split; intros H;
      solve [reflexivity | discriminate H].
  - intros [r [Hr Ht]].
    exists (map json_row (filter (of_type room_type) (df s))).
    assert (Hin : In r (filter (of_type room_type) (df s)))
      by (apply filter_In; split; assumption).
    assert (Hsame : forall t, lower t = lower room_type ->
              filter (of_type t) (df s)
              = filter (of_type room_type) (df s)).
    { intros t Ht'. apply filter_ext. intros x. unfold of_type.
      rewrite Ht'. reflexivity. }
    assert (Hret : forall t, lower t = lower room_type ->
              rooms_by_type t s
              = Return (map json_row (filter (of_type room_type) (df s)))).
    { intros t Ht'. rewrite Heq, (Hsame t Ht').
      destruct (filter (of_type room_type) (df s));
        [contradiction | reflexivity]. }
    split; [apply Hret; reflexivity|].
    split; [|split; [apply _json_ready_rows
                    | intros t _ Ht'; exact (Hret t Ht')]].
    destruct (filter (of_type room_type) (df s));
      [contradiction | discriminate].
Qed.

Lemma rooms_by_type_answers_witness :
  isascii "SUITE" = true
  /\ (forall r, In r (df Sample.server) -> isascii (Room_Type r) = true)
  /\ rooms_by_type "SUITE" Sample.server
     = Return [json_row Sample.room_102; json_row Sample.room_104]
  /\ (rooms_by_type "SUITE" Sample.server
      = HTTPException 404 ("No " ++ "SUITE" ++ " rooms found")
      <-> forall r, In r (df Sample.server) -> of_type "SUITE" r = false)
  /\ ((exists r, In r (df Sample.server) /\ of_type "SUITE" r = true) ->
      exists rows,
        rooms_by_type "SUITE" Sample.server = Return rows
        /\ rows <> []
        /\ _json_ready
             (map to_dict (filter (of_type "SUITE") (df Sample.server)))
           = Some rows
        /\ forall t, isascii t = true -> lower t = lower "SUITE" ->
             rooms_by_type t Sample.server = Return rows).
Proof.
  split; [reflexivity|].
  assert (H : forall r, In r (df Sample.server) ->
                isascii (Room_Type r) = true).
  { intros r Hr. simpl in Hr.
    destruct Hr as [<- | [<- | [<- | [<- | []]]]]; reflexivity. }
  split; [exact H|]. split; [vm_compute; reflexivity|].
  exact (rooms_by_type_answers "SUITE" Sample.server eq_refl H).
Defined.

Lemma occupied_rooms_eq (s : Server) :
  occupied_rooms s = Return (map json_row (filter is_booked (df s))).
Proof.
  unfold occupied_rooms. fold is_booked.
  rewrite _json_ready_rows. reflexivity.
Qed.

(** X14. After [create_booking] has confirmed a booking, [occupied_rooms]
    contains the room with [Guest_<id>] as guest name and the two date
    texts of the request; after a following [cancel_booking] of the room it
    no longer contains that room number. *)
Theorem occupied_rooms_after_booking
  (now : string) (b : BookingRequest) (s s' : Server)
  (resp : BookingResponse) :
  create_booking now b s = (s', Return resp) ->
  (exists rows d,
     occupied_rooms s' = Return rows
     /\ In d rows
     /\ getitem "Room Number" d = Some (VInt (room_number b))
     /\ getitem "Name of Guest" d
        = Some (VStr ("Guest_" ++ str_int (guest_id b)))
     /\ getitem "Check-in Date" d = Some (VStr (check_in_date b))
     /\ getitem "Check-out Date" d = Some (VStr (check_out_date b)))
  /\ (exists rows,
        occupied_rooms (fst (cancel_booking (room_number b) s'))
        = Return rows
        /\ ~ lists_room (room_number b) rows).
Proof.
  intros H. apply create_booking_return in H.
  destruct H as (row0 & rest & ci & co & Hrow & _ & _ & _ & Hdf & _).
  destruct (rows_of_head _ _ _ _ Hrow) as [Hin Hn]. split.
  - exists (map json_row (filter is_booked (df s'))),
           (json_row (book b row0)).
    split; [apply occupied_rooms_eq|]. split.
    + apply in_map. apply filter_In. split; [|reflexivity].
      rewrite Hdf. apply in_assign. exists row0. split; [exact Hin|].
      left. split; [exact Hn | reflexivity].
    + simpl. rewrite Hn. repeat split; reflexivity.
  - assert (He : room_exists (room_number b) s').
    { exists (book b row0). split; [|exact Hn].
      rewrite Hdf. apply in_assign. exists row0. split; [exact Hin|].
      left. split; [exact Hn | reflexivity]. }
    rewrite (cancel_booking_return _ _ He). simpl.
    eexists. split; [apply occupied_rooms_eq|].
    rewrite lists_room_json_row. simpl. intros [r [Hr Hrn]].
    apply filter_In in Hr. destruct Hr as [Hr Hb].
    apply in_assign in Hr.
    destruct Hr as [r0 [_ [[_ ->] | [Hne ->]]]]; [|contradiction].
    discriminate Hb.
Qed.

Lemma occupied_rooms_after_booking_witness :
  create_booking Sample.now Sample.three_nights Sample.server
  = (Sample.booked, Return Sample.confirmation)
  /\ (exists rows d,
        occupied_rooms Sample.booked = Return rows
        /\ In d rows
        /\ getitem "Room Number" d = Some (VInt 103)
        /\ getitem "Name of Guest" d = Some (VStr ("Guest_" ++ str_int 7))
        /\ getitem "Check-in Date" d = Some (VStr "2025-08-01")
        /\ getitem "Check-out Date" d = Some (VStr "2025-08-04"))
  /\ (exists rows,
        occupied_rooms (fst (cancel_booking 103 Sample.booked))
        = Return rows
        /\ ~ lists_room 103 rows).
Proof.
  split; [exact create_booking_sample|].
  exact (occupied_rooms_after_booking Sample.now Sample.three_nights
           Sample.server Sample.booked Sample.confirmation
           create_booking_sample).
Defined.

(** ** Further properties of the listings *)

Lemma regular_not_reserved (r : Room) :
  regular r = true -> is_reserved r = false /\ is_available r = true.
Proof.
  unfold regular, is_reserved. intros H. apply andb_true_iff in H.
  destruct H as [Ha Hf]. apply String.eqb_eq in Hf. rewrite Hf.
  split; [reflexivity | exact Ha].
Qed.

Lemma regular_offered (ci : Datetime.datetime) (r : Room) :
  regular r = true -> offered_regular ci r = true.
Proof.
  intros H. destruct (regular_not_reserved r H) as [Hr Ha].
  unfold offered_regular, offered. rewrite Hr, Ha. reflexivity.
Qed.

Lemma offered_regular_offered (ci : Datetime.datetime) (r : Room) :
  offered_regular ci r = true -> offered ci r = true.
Proof.
  unfold offered_regular. intros H. apply andb_true_iff in H. apply H.
Qed.

Lemma incl_map_filter {A B : Type} (f : A -> B) (p q : A -> bool)
  (l : list A) :
  (forall x, In x l -> p x = true -> q x = true) ->
  incl (map f (filter p l)) (map f (filter q l)).
Proof.
  intros H y Hy. apply in_map_iff in Hy. destruct Hy as [x [<- Hx]].
  apply filter_In in Hx. destruct Hx as [Hx Hp].
  apply in_map. apply filter_In. split; [exact Hx | apply H; assumption].
Qed.

(** X15. For dates that parse, every record of the regular listing
    [available_rooms] is a record of [available_rooms_for_dates], and every
    room number listed by [available_rooms_for_dates] is listed by
    [available_rooms_for_dates_with_upselling]. *)
Theorem listings_are_nested
  (check_in check_out : string) (ci co : Datetime.datetime) (m : float)
  (s : Server) :
  Datetime.strptime check_in = Some ci ->
  Datetime.strptime check_out = Some co ->
  exists now_rows range_rows upsell_rows,
    available_rooms s = Return now_rows
    /\ available_rooms_for_dates check_in check_out s = Return range_rows
    /\ available_rooms_for_dates_with_upselling check_in check_out m s
       = Return upsell_rows
    /\ incl now_rows range_rows
    /\ forall n, lists_room n range_rows -> lists_room n upsell_rows.
Proof.
  intros Hi Ho. do 3 eexists.
  split; [apply available_rooms_eq|].
  split; [apply (available_rooms_for_dates_eq _ _ ci co); assumption|].
  split; [apply (available_rooms_for_dates_with_upselling_eq _ _ ci co);
          assumption|].
  split.
  - apply incl_map_filter. intros r _. apply regular_offered.
  - intros n. rewrite lists_room_json_row, lists_room_json_markup.
    intros [r [Hr Hn]]. exists r. split; [|exact Hn].
    apply filter_In in Hr. destruct Hr as [Hr Hoff].
    apply filter_In. split; [exact Hr | apply offered_regular_offered with (1 := Hoff)].
Qed.

Lemma listings_are_nested_witness :
  Datetime.strptime "2025-07-10" = Some (Datetime.mkDate 2025 7 10)
  /\ Datetime.strptime "2025-07-12" = Some (Datetime.mkDate 2025 7 12)
  /\ exists now_rows range_rows upsell_rows,
       available_rooms Sample.server = Return now_rows
       /\ available_rooms_for_dates "2025-07-10" "2025-07-12" Sample.server
          = Return range_rows
       /\ available_rooms_for_dates_with_upselling
            "2025-07-10" "2025-07-12" 15 Sample.server
          = Return upsell_rows
       /\ incl now_rows range_rows
       /\ forall n, lists_room n range_rows -> lists_room n upsell_rows.
Proof.
  split; [reflexivity|]. split; [reflexivity|].
  exact (listings_are_nested "2025-07-10" "2025-07-12"
           (Datetime.mkDate 2025 7 10) (Datetime.mkDate 2025 7 12) 15
           Sample.server eq_refl eq_refl).
Defined.

Lemma le_trans (a b c : Datetime.datetime) :
  Datetime.le a b = true -> Datetime.le b c = true -> Datetime.le a c = true.
Proof.
  unfold Datetime.le. destruct a, b, c. simpl. lia.
Qed.

Lemma offered_later (ci1 ci2 : Datetime.datetime) (r : Room) :
  Datetime.le ci1 ci2 = true -> offered ci1 r = true -> offered ci2 r = true.
Proof.
  intros Hle. unfold offered, frees_by.
  destruct (is_available r); [reflexivity|]. simpl.
  destruct (Datetime.strptime (Check_out_Date r)) as [d|]; [|discriminate].
  intros H. exact (le_trans _ _ _ H Hle).
Qed.

(** X16. Moving the requested check-in date later never removes a room from
    the listings for a date range: for two check-in dates in order, every
    record returned for the earlier one is returned for the later one, by
    both range listings. *)
Theorem later_check_in_keeps_rooms
  (check_in1 check_in2 check_out1 check_out2 : string)
  (ci1 ci2 co1 co2 : Datetime.datetime) (m : float) (s : Server) :
  Datetime.strptime check_in1 = Some ci1 ->
  Datetime.strptime check_in2 = Some ci2 ->
  Datetime.strptime check_out1 = Some co1 ->
  Datetime.strptime check_out2 = Some co2 ->
  Datetime.le ci1 ci2 = true ->
  exists rows1 rows2 upsell1 upsell2,
    available_rooms_for_dates check_in1 check_out1 s = Return rows1
    /\ available_rooms_for_dates check_in2 check_out2 s = Return rows2
    /\ available_rooms_for_dates_with_upselling check_in1 check_out1 m s
       = Return upsell1
    /\ available_rooms_for_dates_with_upselling check_in2 check_out2 m s
       = Return upsell2
    /\ incl rows1 rows2
    /\ incl upsell1 upsell2.
Proof.
  intros H1 H2 Ho1 Ho2 Hle. do 4 eexists.
  split; [apply (available_rooms_for_dates_eq _ _ ci1 co1); assumption|].
  split; [apply (available_rooms_for_dates_eq _ _ ci2 co2); assumption|].
  split; [apply (available_rooms_for_dates_with_upselling_eq _ _ ci1 co1);
          assumption|].
  split; [apply (available_rooms_for_dates_with_upselling_eq _ _ ci2 co2);
          assumption|].
  split; apply incl_map_filter; intros r _.
  - unfold offered_regular. intros H. apply andb_true_iff in H.
    destruct H as [Hr Hoff]. rewrite Hr.
    rewrite (offered_later ci1 ci2 r Hle Hoff). reflexivity.
  - apply offered_later. exact Hle.
Qed.

Lemma later_check_in_keeps_rooms_witness :
  Datetime.strptime "2025-07-09" = Some (Datetime.mkDate 2025 7 9)
  /\ Datetime.strptime "2025-07-10" = Some (Datetime.mkDate 2025 7 10)
  /\ Datetime.strptime "2025-07-12" = Some (Datetime.mkDate 2025 7 12)
  /\ Datetime.strptime "2025-07-15" = Some (Datetime.mkDate 2025 7 15)
  /\ Datetime.le (Datetime.mkDate 2025 7 9) (Datetime.mkDate 2025 7 10) = true
  /\ exists rows1 rows2 upsell1 upsell2,
       available_rooms_for_dates "2025-07-09" "2025-07-12" Sample.server
       = Return rows1
       /\ available_rooms_for_dates "2025-07-10" "2025-07-15" Sample.server
          = Return rows2
       /\ available_rooms_for_dates_with_upselling
            "2025-07-09" "2025-07-12" 15 Sample.server
          = Return upsell1
       /\ available_rooms_for_dates_with_upselling
            "2025-07-10" "2025-07-15" 15 Sample.server
          = Return upsell2
       /\ incl rows1 rows2
       /\ incl upsell1 upsell2.
Proof.
  do 5 (split; [reflexivity|]).
  exact (later_check_in_keeps_rooms
           "2025-07-09" "2025-07-10" "2025-07-12" "2025-07-15"
           (Datetime.mkDate 2025 7 9) (Datetime.mkDate 2025 7 10)
           (Datetime.mkDate 2025 7 12) (Datetime.mkDate 2025 7 15)
           15 Sample.server eq_refl eq_refl eq_refl eq_refl eq_refl).
Defined.

Lemma get_reserved_rooms_eq (s : Server) :
  get_reserved_rooms s = Return (map json_row (filter is_reserved (df s))).
Proof.
  unfold get_reserved_rooms. fold is_reserved.
  rewrite _json_ready_rows. reflexivity.
Qed.

Lemma flag_json_row (r : Room) :
  flag_of (json_row r) = Some (VStr (reserved_for_upselling r)).
Proof. reflexivity. Qed.

(** X17. A room reserved for upselling is never shown to a regular guest:
    no record of [available_rooms] or of [available_rooms_for_dates] has an
    upselling flag that reads [yes] in lower case, every record of
    [get_reserved_rooms] has one, and [get_reserved_rooms] returns every
    reserved row of the ledger. *)
Theorem regular_listings_hide_reserved
  (check_in check_out : string) (ci co : Datetime.datetime) (s : Server) :
  Datetime.strptime check_in = Some ci ->
  Datetime.strptime check_out = Some co ->
  exists now_rows range_rows reserved_rows,
    available_rooms s = Return now_rows
    /\ available_rooms_for_dates check_in check_out s = Return range_rows
    /\ get_reserved_rooms s = Return reserved_rows
    /\ (forall d, In d now_rows \/ In d range_rows ->
         exists flag, flag_of d = Some (VStr flag) /\ lower flag <> "yes")
    /\ (forall d, In d reserved_rows ->
         exists flag, flag_of d = Some (VStr flag) /\ lower flag = "yes")
    /\ (forall r, In r (df s) -> lower (reserved_for_upselling r) = "yes" ->
         In (json_row r) reserved_rows).
Proof.
  intros Hi Ho. do 3 eexists.
  split; [apply available_rooms_eq|].
  split; [apply (available_rooms_for_dates_eq _ _ ci co); assumption|].
  split; [apply get_reserved_rooms_eq|].
  assert (Hno : forall r, is_reserved r = false ->
            lower (reserved_for_upselling r) <> "yes").
  { unfold is_reserved. intros r H E. rewrite E in H. discriminate H. }
  split; [|split].
  - intros d [Hd | Hd]; apply in_map_iff in Hd;
      destruct Hd as [r [<- Hr]]; apply filter_In in Hr;
      destruct Hr as [_ Hr]; exists (reserved_for_upselling r);
      (split; [apply flag_json_row|]); apply Hno.
    + apply regular_not_reserved. exact Hr.
    + unfold offered_regular in Hr. apply andb_true_iff in Hr.
      destruct Hr as [Hr _]. apply negb_true_iff. exact Hr.
  - intros d Hd. apply in_map_iff in Hd. destruct Hd as [r [<- Hr]].
    apply filter_In in Hr. destruct Hr as [_ Hr].
    exists (reserved_for_upselling r). split; [apply flag_json_row|].
    apply String.eqb_eq. exact Hr.
  - intros r Hr Hf. apply in_map. apply filter_In. split; [exact Hr|].
    unfold is_reserved. rewrite Hf. reflexivity.
Qed.

Lemma regular_listings_hide_reserved_witness :
  Datetime.strptime "2025-07-10" = Some (Datetime.mkDate 2025 7 10)
  /\ Datetime.strptime "2025-07-12" = Some (Datetime.mkDate 2025 7 12)
  /\ exists now_rows range_rows reserved_rows,
       available_rooms Sample.server = Return now_rows
       /\ available_rooms_for_dates "2025-07-10" "2025-07-12" Sample.server
          = Return range_rows
       /\ get_reserved_rooms Sample.server = Return reserved_rows
       /\ (forall d, In d now_rows \/ In d range_rows ->
            exists flag, flag_of d = Some (VStr flag) /\ lower flag <> "yes")
       /\ (forall d, In d reserved_rows ->
            exists flag, flag_of d = Some (VStr flag) /\ lower flag = "yes")
       /\ (forall r, In r (df Sample.server) ->
            lower (reserved_for_upselling r) = "yes" ->
            In (json_row r) reserved_rows).
Proof.
  split; [reflexivity|]. split; [reflexivity|].
  exact (regular_listings_hide_reserved "2025-07-10" "2025-07-12"
           (Datetime.mkDate 2025 7 10) (Datetime.mkDate 2025 7 12)
           Sample.server eq_refl eq_refl).
Defined.

Lemma clean_float_plain (f : float) :
  isna (clean_float f) = false /\ forall b, clean_float f <> VBool b.
Proof.
  unfold clean_float. destruct (PrimFloat.is_nan f) eqn:E; simpl.
  - split; [reflexivity | discriminate].
  - split; [exact E | discriminate].
Qed.

Ltac plain_items H :=
  simpl in H;
  repeat (destruct H as [H | H];
          [injection H as <- <-;
           first [ apply clean_float_plain
                 | split; [reflexivity | discriminate] ]|]);
  contradiction.

Lemma traverse_fails {A B : Type} (f : A -> option B) (l : list A) (x : A) :
  In x l -> f x = None -> traverse f l = None.
Proof.
  intros Hin Hx. induction l as [|y l IH]; simpl; [contradiction|].
  destruct Hin as [-> | Hin]; [rewrite Hx; reflexivity|].
  rewrite (IH Hin). destruct (f y); reflexivity.
Qed.

(** X18. On the records the endpoints build from ledger rows whose price is
    a number of the float column (NaN and the infinities included), with or
    without the markup, [_json_ready] returns one record per row and no
    value of any returned record is NaN or a boolean, whatever the numeric
    prices and the markup percentage are.  A price that is the empty text,
    which is what the final [fillna] of the load leaves for a blank price
    cell, is no such number: on records one of which holds it,
    [_json_ready] raises the [ValueError] of [float]. *)
Theorem json_ready_records_are_plain (l : list Room) (m : float) :
  (exists rows marked,
     _json_ready (map to_dict l) = Some rows
     /\ _json_ready (map (with_markup m) l) = Some marked
     /\ List.length rows = List.length l
     /\ List.length marked = List.length l
     /\ forall d k v, In d rows \/ In d marked -> In (k, v) d ->
          isna v = false /\ forall b, v <> VBool b)
  /\ (forall records d,
        In d records -> In ("Price", VStr "") d ->
        _json_ready records = None)
  /\ _json_ready
       [setitem "Price" (VStr "") (to_dict Sample.room_103)] = None.
Proof.
  split; [|split].
  - exists (map json_row l), (map (json_markup m) l).
    split; [apply _json_ready_rows|]. split; [apply _json_ready_markup|].
    split; [apply length_map|]. split; [apply length_map|].
    intros d k v [Hd | Hd] Hkv; apply in_map_iff in Hd;
      destruct Hd as [r [<- _]].
    + unfold json_row in Hkv. plain_items Hkv.
    + unfold json_markup in Hkv. destruct (is_reserved r); plain_items Hkv.
  - intros records d Hd Hp. unfold _json_ready.
    apply (traverse_fails _ records d Hd).
    apply (traverse_fails _ d ("Price", VStr "") Hp). reflexivity.
  - reflexivity.
Qed.

Lemma fields_json_markup_plain (m : float) (r : Room) :
  is_reserved r = false ->
  getitem "Price" (json_markup m r) = Some (clean_float (Price r))
  /\ getitem "original_price" (json_markup m r)
     = Some (clean_float (Price r))
  /\ getitem "is_premium_upselling" (json_markup m r) = Some (VInt 0)
  /\ getitem "markup_percentage" (json_markup m r) = Some (VInt 0).
Proof.
  intros H. unfold json_markup. rewrite H. repeat split; reflexivity.
Qed.

(** X19. The markup never touches a room that is not reserved for
    upselling: for every markup percentage, [available_rooms_with_upselling]
    returns such an available room with its ledger price both as [Price]
    and as [original_price], with [markup_percentage] 0 and with
    [is_premium_upselling] as the integer 0 (the boolean is turned into an
    integer by [_json_ready]). *)
Theorem markup_leaves_unreserved_rooms (m : float) (s : Server) (r : Room) :
  In r (df s) ->
  is_available r = true ->
  is_reserved r = false ->
  exists rows d,
    available_rooms_with_upselling m s = Return rows
    /\ In d rows
    /\ getitem "Room Number" d = Some (VInt (Room_Number r))
    /\ getitem "Price" d = getitem "original_price" d
    /\ (PrimFloat.is_nan (Price r) = false ->
        getitem "Price" d = Some (VFloat (Price r)))
    /\ getitem "is_premium_upselling" d = Some (VInt 0)
    /\ getitem "markup_percentage" d = Some (VInt 0).
Proof.
  intros Hr Ha Hres.
  exists (map (json_markup m) (filter is_available (df s))),
         (json_markup m r).
  split; [apply available_rooms_with_upselling_eq|].
  split; [apply in_map; apply filter_In; split; assumption|].
  split; [apply number_json_markup|].
  destruct (fields_json_markup_plain m r Hres) as (Hp & Ho & Hf & Hm).
  rewrite Hp, Ho, Hf, Hm. repeat split.
  intros Hn. unfold clean_float. rewrite Hn. reflexivity.
Qed.

Lemma markup_leaves_unreserved_rooms_witness :
  In Sample.room_103 (df Sample.server)
  /\ is_available Sample.room_103 = true
  /\ is_reserved Sample.room_103 = false
  /\ exists rows d,
       available_rooms_with_upselling 15 Sample.server = Return rows
       /\ In d rows
       /\ getitem "Room Number" d = Some (VInt 103)
       /\ getitem "Price" d = getitem "original_price" d
       /\ (PrimFloat.is_nan 3500 = false ->
           getitem "Price" d = Some (VFloat 3500))
       /\ getitem "is_premium_upselling" d = Some (VInt 0)
       /\ getitem "markup_percentage" d = Some (VInt 0).
Proof.
  assert (Hin : In Sample.room_103 (df Sample.server))
    by (right; right; left; reflexivity).
  split; [exact Hin|]. split; [reflexivity|]. split; [reflexivity|].
  exact (markup_leaves_unreserved_rooms 15 Sample.server Sample.room_103
           Hin eq_refl eq_refl).
Defined.

(** X20. A room booked until a day is offered again exactly for stays that
    start on or after that day: after [create_booking] has confirmed a
    booking with check-out date [D], [available_rooms_for_dates] lists the
    room number for a check-in date [I] if and only if some row of the room
    is not reserved for upselling and [D <= I]. *)
Theorem booked_room_offered_from_check_out
  (now : string) (b : BookingRequest) (s s' : Server)
  (resp : BookingResponse) (check_in check_out : string)
  (ci co : Datetime.datetime) :
  create_booking now b s = (s', Return resp) ->
  Datetime.strptime check_in = Some ci ->
  Datetime.strptime check_out = Some co ->
  exists booked_until rows,
    Datetime.strptime (check_out_date b) = Some booked_until
    /\ available_rooms_for_dates check_in check_out s' = Return rows
    /\ (lists_room (room_number b) rows
        <-> (exists r, In r (df s) /\ Room_Number r = room_number b
                       /\ is_reserved r = false)
            /\ Datetime.le booked_until ci = true).
Proof.
  intros H Hi Ho. apply create_booking_return in H.
  destruct H as (row0 & rest & cin & cout & _ & _ & _ & Hout & Hdf & _).
  exists cout. eexists. split; [exact Hout|].
  split; [apply (available_rooms_for_dates_eq _ _ ci co); assumption|].
  rewrite lists_room_json_row.
  assert (Hoff : forall r, offered_regular ci (book b r)
                           = negb (is_reserved r) && Datetime.le cout ci).
  { intros r. unfold offered_regular, offered, frees_by, is_reserved.
    simpl. rewrite Hout. reflexivity. }
  split.
  - intros [r' [Hr' Hn]]. apply filter_In in Hr'. destruct Hr' as [Hr' Hk].
    rewrite Hdf in Hr'. apply in_assign in Hr'.
    destruct Hr' as [r [Hr [[Hrn ->] | [Hne ->]]]]; [|contradiction].
    rewrite Hoff in Hk. apply andb_true_iff in Hk. destruct Hk as [Hk1 Hk2].
    split; [|exact Hk2]. exists r. split; [exact Hr|].
    split; [exact Hrn | apply negb_true_iff; exact Hk1].
  - intros [[r (Hr & Hrn & Hres)] Hle]. exists (book b r).
    split; [|exact Hrn]. apply filter_In. split.
    + rewrite Hdf. apply in_assign. exists r. split; [exact Hr|].
      left. split; [exact Hrn | reflexivity].
    + rewrite Hoff, Hres, Hle. reflexivity.
Qed.

Lemma booked_room_offered_from_check_out_witness :
  create_booking Sample.now Sample.three_nights Sample.server
  = (Sample.booked, Return Sample.confirmation)
  /\ Datetime.strptime "2025-08-04" = Some (Datetime.mkDate 2025 8 4)
  /\ Datetime.strptime "2025-08-06" = Some (Datetime.mkDate 2025 8 6)
  /\ exists booked_until rows,
       Datetime.strptime "2025-08-04" = Some booked_until
       /\ available_rooms_for_dates "2025-08-04" "2025-08-06" Sample.booked
          = Return rows
       /\ (lists_room 103 rows
           <-> (exists r, In r (df Sample.server) /\ Room_Number r = 103
                          /\ is_reserved r = false)
               /\ Datetime.le booked_until (Datetime.mkDate 2025 8 4)
                  = true).
Proof.
  split; [exact create_booking_sample|].
  split; [reflexivity|]. split; [reflexivity|].
  exact (booked_room_offered_from_check_out Sample.now Sample.three_nights
           Sample.server Sample.booked Sample.confirmation
           "2025-08-04" "2025-08-06" (Datetime.mkDate 2025 8 4)
           (Datetime.mkDate 2025 8 6) create_booking_sample
           eq_refl eq_refl).
Defined.

(** ** The number of nights *)

(** X21. In a confirmed booking the number of nights that multiplies the
    price follows the order of the two dates: it is positive exactly when
    the check-out date is after the check-in date, zero exactly when the
    two texts denote the same day, and negative exactly when the check-out
    date is before the check-in date. *)
Theorem nights_follow_the_dates
  (now : string) (b : BookingRequest) (s s' : Server)
  (resp : BookingResponse) :
  create_booking now b s = (s', Return resp) ->
  exists row0 rest check_in check_out,
    rows_of (room_number b) (df s) = row0 :: rest
    /\ Datetime.strptime (check_in_date b) = Some check_in
    /\ Datetime.strptime (check_out_date b) = Some check_out
    /\ total_cost resp
       = (Price row0
          * float_of_int (Datetime.days_between check_out check_in))%float
    /\ (0 < Datetime.days_between check_out check_in
        <-> Datetime.le check_out check_in = false)
    /\ (Datetime.days_between check_out check_in = 0
        <-> check_out = check_in)
    /\ (Datetime.days_between check_out check_in < 0
        <-> Datetime.le check_in check_out = false).
Proof.
  intros H. apply create_booking_return in H.
  destruct H as (row0 & rest & ci & co & Hrow & _ & Hi & Ho & _ & _ & Hc & _).
  exists row0, rest, ci, co. repeat (split; [assumption|]).
  pose proof (strptime_valid _ _ Hi) as Vi.
  pose proof (strptime_valid _ _ Ho) as Vo.
  unfold Datetime.days_between.
  assert (Hgt : Datetime.le co ci = false ->
                Datetime.toordinal ci < Datetime.toordinal co)
    by (apply toordinal_lt; assumption).
  assert (Hlt : Datetime.le ci co = false ->
                Datetime.toordinal co < Datetime.toordinal ci)
    by (apply toordinal_lt; assumption).
  assert (Hle1 : Datetime.le co ci = true ->
                 Datetime.toordinal co <= Datetime.toordinal ci)
    by (apply toordinal_le; assumption).
  assert (Hle2 : Datetime.le ci co = true ->
                 Datetime.toordinal ci <= Datetime.toordinal co)
    by (apply toordinal_le; assumption).
  split; [|split].
  - split; [|intros E; specialize (Hgt E); lia].
    intros Hpos. destruct (Datetime.le co ci) eqn:E; [|reflexivity].
    specialize (Hle1 eq_refl). lia.
  - split.
    + intros Hz. apply le_antisym.
      * destruct (Datetime.le co ci) eqn:E; [reflexivity|].
        specialize (Hgt eq_refl). lia.
      * destruct (Datetime.le ci co) eqn:E; [reflexivity|].
        specialize (Hlt eq_refl). lia.
    + intros ->. lia.
  - split; [|intros E; specialize (Hlt E); lia].
    intros Hneg. destruct (Datetime.le ci co) eqn:E; [|reflexivity].
    specialize (Hle2 eq_refl). lia.
Qed.

Lemma nights_follow_the_dates_witness :
  create_booking Sample.now Sample.three_nights Sample.server
  = (Sample.booked, Return Sample.confirmation)
  /\ exists row0 rest check_in check_out,
       rows_of 103 (df Sample.server) = row0 :: rest
       /\ Datetime.strptime "2025-08-01" = Some check_in
       /\ Datetime.strptime "2025-08-04" = Some check_out
       /\ total_cost Sample.confirmation
          = (Price row0
             * float_of_int (Datetime.days_between check_out check_in))%float
       /\ (0 < Datetime.days_between check_out check_in
           <-> Datetime.le check_out check_in = false)
       /\ (Datetime.days_between check_out check_in = 0
           <-> check_out = check_in)
       /\ (Datetime.days_between check_out check_in < 0
           <-> Datetime.le check_in check_out = false).
Proof.
  split; [exact create_booking_sample|].
  exact (nights_follow_the_dates Sample.now Sample.three_nights
           Sample.server Sample.booked Sample.confirmation
           create_booking_sample).
Defined.

(** ** Further properties of the context analyzer *)

Import ContextTools.

Lemma wellness_focus_spec (p a e : string) :
  wellness_focus (_analyze_lifestyle p a e)
  = if any_in ["spa"; "massage"; "wellness"; "gym"; "fitness"] a
    then "high" else "low".
Proof.
  unfold _analyze_lifestyle, when. cbv beta zeta.
  destruct a as [|c a]; cbn [truthy];
    [change (any_in ["spa"; "massage"; "wellness"; "gym"; "fitness"] "")
       with false|];
    split_ifs; reflexivity.
Qed.

Lemma business_orientation_high (p a e : string) :
  any_in ["executive"; "manager"; "director"; "ceo"; "business"] p = true ->
  business_orientation (_analyze_lifestyle p a e) = "high".
Proof.
  intros H. unfold _analyze_lifestyle, when. cbv beta zeta. rewrite H.
  split_ifs; reflexivity.
Qed.

Lemma spending_category_high (l : string) (bill : float) (pm : string) :
  String.eqb (spending_category (_analyze_loyalty_behavior l bill pm)) "high"
  = (20000 <? bill)%float.
Proof.
  unfold _analyze_loyalty_behavior.
  destruct (20000 <? bill)%float; [reflexivity|].
  destruct (10000 <? bill)%float; [reflexivity|].
  destruct (bill <? 3000)%float; reflexivity.
Qed.

Lemma retention_probability_high (l : string) (bill : float) (pm : string) :
  String.eqb (retention_probability (_analyze_loyalty_behavior l bill pm))
             "high"
  = existsb (String.eqb l) ["Gold"; "Platinum"; "Diamond"].
Proof.
  unfold _analyze_loyalty_behavior.
  destruct (20000 <? bill)%float;
    [|destruct (10000 <? bill)%float; [|destruct (bill <? 3000)%float]];
    cbv zeta beta iota;
    (destruct (existsb (String.eqb l) ["Gold"; "Platinum"; "Diamond"]);
     [reflexivity|];
     destruct (existsb (String.eqb l) ["Silver"; "Bronze"]); [reflexivity|];
     destruct (String.eqb l "New"); reflexivity).
Qed.

Lemma overall_sentiment_very_positive (fb sr : string) :
  String.eqb (overall_sentiment (_analyze_satisfaction fb sr)) "very_positive"
  = any_in ["excellent"; "amazing"; "perfect"; "loved"; "wonderful"] fb.
Proof.
  unfold _analyze_satisfaction. cbv beta zeta. cbn [overall_sentiment].
  destruct fb as [|c fb]; [reflexivity|]. cbn [truthy].
  split_ifs; reflexivity.
Qed.

Lemma service_sensitivity_high (fb sr : string) :
  String.eqb (service_sensitivity (_analyze_satisfaction fb sr)) "high"
  = any_in ["staff"; "service"; "attitude"; "helpful"] fb.
Proof.
  unfold _analyze_satisfaction. cbv beta zeta. cbn [service_sensitivity].
  destruct fb as [|c fb]; [reflexivity|]. cbn [truthy andb].
  split_ifs; reflexivity.
Qed.

(** X22. For a guest profile with the nine fields of the guest record (texts
    and a numeric bill), the predictions that
    [_generate_behavioral_predictions] draws from the profile and from its
    deep analysis depend on the profile as follows: upsell receptivity is
    [high] exactly when the total bill exceeds 20000, and otherwise
    [moderate-high] exactly when the feedback mentions staff, service,
    attitude or helpful; the guest is likely to return ([high]) exactly when
    the member is Gold or Platinum with a bill above 10000 or the feedback
    holds a very positive keyword; the three other predictions are the same
    for every guest. *)
Theorem predictions_from_profile (g : GuestData) :
  let predictions :=
    _generate_behavioral_predictions g (_perform_deep_context_analysis g) in
  upsell_receptivity predictions
  = (if (20000 <? total_bill g)%float then "high"
     else if any_in ["staff"; "service"; "attitude"; "helpful"]
                    (lower (feedback_and_issues g))
          then "moderate-high"
          else "moderate")
  /\ likely_to_return predictions
     = (if (existsb (String.eqb (loyalty_member g)) ["Gold"; "Platinum"]
            && (10000 <? total_bill g)%float)
           || any_in ["excellent"; "amazing"; "perfect"; "loved";
                      "wonderful"]
                     (lower (feedback_and_issues g))
        then "high" else "moderate")
  /\ service_utilization predictions = "moderate"
  /\ satisfaction_probability predictions = "high"
  /\ recommendation_likelihood predictions = "moderate".
Proof.
  cbv zeta.
  cbn [upsell_receptivity likely_to_return
       service_utilization satisfaction_probability
       recommendation_likelihood _generate_behavioral_predictions
       satisfaction_insights ContextAnalyzer.loyalty_behavior
       _perform_deep_context_analysis].
  rewrite spending_category_high, service_sensitivity_high,
    overall_sentiment_very_positive.
  split; [reflexivity|]. split; [|repeat split; reflexivity].
  destruct (existsb (String.eqb (loyalty_member g)) ["Gold"; "Platinum"]
            && (10000 <? total_bill g)%float); reflexivity.
Qed.

(** X23. The confidence score lies between 0.5 and 1.0 for every profile.
    In binary64 arithmetic it is 1.0 exactly when the special requests, the
    amenities, the activities and the feedback are all non-empty, whether
    or not the total bill is positive: the four increments already sum to
    1.0, and the fifth is cut off by the minimum. *)
Theorem confidence_score_range (g : GuestData) :
  (0.5 <=? _calculate_confidence_score g)%float = true
  /\ (_calculate_confidence_score g <=? 1)%float = true
  /\ (_calculate_confidence_score g = 1%float
      <-> truthy (special_requests g) && truthy (amenities_used g)
          && truthy (extra_activities_booked g)
          && truthy (feedback_and_issues g) = true).
Proof.
  unfold _calculate_confidence_score.
  destruct (truthy (special_requests g)), (truthy (amenities_used g)),
    (truthy (extra_activities_booked g)), (truthy (feedback_and_issues g)),
    (0 <? total_bill g)%float;
    vm_compute; (split; [reflexivity|]); (split; [reflexivity|]);
    split; intros H; solve [reflexivity | discriminate H].
Qed.

Lemma ltb_20000_15000 (x : float) :
  (20000 <? x)%float = true -> (15000 <? x)%float = true.
Proof.
  rewrite !FloatAxioms.ltb_spec.
  change (Prim2SF 20000) with (S754_finite false 5497558138880000 (-38)).
  change (Prim2SF 15000) with (S754_finite false 8246337208320000 (-39)).
  destruct (Prim2SF x) as [sx|sx| |sx mx ex]; unfold SFltb, SFcompare;
    try (destruct sx; intros H; solve [reflexivity | discriminate H]).
  - discriminate.
  - destruct sx; [discriminate|]. intros H.
    assert (E : (-39 ?= ex) = Lt).
    { apply Z.compare_lt_iff.
      destruct (Z.compare_spec (-38) ex); [lia | lia | discriminate H]. }
    rewrite E. reflexivity.
Qed.

(** The drivers, as the concatenation of what each rule contributes. *)
Lemma drivers_by_rule (g : GuestData) :
  _identify_recommendation_drivers g
  = ((if existsb (String.eqb (loyalty_member g))
                 ["Gold"; "Platinum"; "Diamond"]
      then [("VIP_" ++ loyalty_member g ++ "_status")%string] else [])
     ++ (if (15000 <? total_bill g)%float then ["high_value_guest"]
         else if (8000 <? total_bill g)%float then ["moderate_value_guest"]
              else [])
     ++ (if contains "business" (lower (profession g))
            || contains "executive" (lower (profession g))
         then ["business_professional"] else [])
     ++ (if any_in ["spa"; "wellness"; "massage"] (lower (amenities_used g))
         then ["wellness_focused"] else [])
     ++ (if any_in ["tour"; "cultural"; "adventure"]
                   (lower (extra_activities_booked g))
         then ["experience_seeker"] else []))%list.
Proof.
  unfold _identify_recommendation_drivers, append. cbv zeta.
  destruct (existsb (String.eqb (loyalty_member g))
                    ["Gold"; "Platinum"; "Diamond"]);
    destruct (15000 <? total_bill g)%float;
    destruct (8000 <? total_bill g)%float;
    destruct (contains "business" (lower (profession g))
              || contains "executive" (lower (profession g)));
    destruct (any_in ["spa"; "wellness"; "massage"]
                     (lower (amenities_used g)));
    destruct (any_in ["tour"; "cultural"; "adventure"]
                     (lower (extra_activities_booked g)));
    reflexivity.
Qed.

Ltac in_drivers H :=
  rewrite drivers_by_rule in H;
  repeat (apply in_app_or in H; destruct H as [H | H]);
  repeat match type of H with
         | In _ (if ?c then _ else _) => destruct c eqn:?
         end;
  simpl in H;
  repeat match type of H with
         | _ \/ _ => destruct H as [H | H]
         end;
  try contradiction; try discriminate H.

Lemma any_in_incl (ws ws' : list string) (x : string) :
  incl ws ws' -> any_in ws x = true -> any_in ws' x = true.
Proof.
  unfold any_in. intros Hi H. apply existsb_exists in H.
  destruct H as [w [Hw Hc]]. apply existsb_exists. exists w.
  split; [apply Hi; exact Hw | exact Hc].
Qed.

(** X24. The recommendation drivers agree with the contextual analysis of
    the same guest: the driver [wellness_focused] implies wellness focus
    [high], the driver [business_professional] implies business
    orientation [high], spending category [high] implies the driver
    [high_value_guest], and retention probability is [high] exactly when
    the driver [VIP_<tier>_status] is present. *)
Theorem drivers_agree_with_analysis (g : GuestData) :
  let drivers := _identify_recommendation_drivers g in
  let analysis := _perform_deep_context_analysis g in
  (In "wellness_focused" drivers ->
   wellness_focus (lifestyle_profile analysis) = "high")
  /\ (In "business_professional" drivers ->
      business_orientation (lifestyle_profile analysis) = "high")
  /\ (spending_category (ContextAnalyzer.loyalty_behavior analysis) = "high" ->
      In "high_value_guest" drivers)
  /\ (retention_probability (ContextAnalyzer.loyalty_behavior analysis)
      = "high"
      <-> In ("VIP_" ++ loyalty_member g ++ "_status") drivers).
Proof.
  cbv zeta.
  cbn [lifestyle_profile ContextAnalyzer.loyalty_behavior
       _perform_deep_context_analysis].
  split; [|split; [|split]].
  - intros H. rewrite wellness_focus_spec.
    assert (E : any_in ["spa"; "wellness"; "massage"]
                       (lower (amenities_used g)) = true)
      by (in_drivers H; reflexivity).
    assert (Hi : incl ["spa"; "wellness"; "massage"]
                      ["spa"; "massage"; "wellness"; "gym"; "fitness"])
      by (intros w [<- | [<- | [<- | []]]]; simpl; auto 10).
    rewrite (any_in_incl _ _ _ Hi E). reflexivity.
  - intros H. apply business_orientation_high.
    assert (E : contains "business" (lower (profession g))
                || contains "executive" (lower (profession g)) = true)
      by (in_drivers H; reflexivity).
    unfold any_in. simpl. apply orb_true_iff in E.
    destruct E as [E | E]; rewrite E; repeat rewrite orb_true_r;
      reflexivity.
  - intros H. apply String.eqb_eq in H.
    rewrite spending_category_high in H.
    rewrite drivers_by_rule. rewrite (ltb_20000_15000 _ H).
    apply in_or_app. right. left. reflexivity.
  - rewrite <- String.eqb_eq, retention_probability_high. split.
    + intros H. rewrite drivers_by_rule, H. left. reflexivity.
    + intros H. in_drivers H. reflexivity.
Qed.

(** X25. The upsells offered with a booking, computed from the analysis of
    the same guest, are decided by the profile alone: the spa package is
    offered exactly when the amenities mention spa, massage, wellness, gym
    or fitness, the member upgrade exactly to Gold and Platinum members
    (not to Diamond), the business package exactly when the profession
    mentions executive, manager or business; they come in this order, at
    most three, and whoever is offered the business package has business
    orientation [high]. *)
Theorem upsells_from_profile
  (g : GuestData) (booking_result : BookingServer.BookingResponse) :
  let analysis := _perform_deep_context_analysis g in
  let upsells := _generate_contextual_upsells g analysis booking_result in
  map service upsells
  = ((if any_in ["spa"; "massage"; "wellness"; "gym"; "fitness"]
                (lower (amenities_used g))
      then ["Spa Package Addition"] else [])
     ++ (if existsb (String.eqb (loyalty_member g)) ["Gold"; "Platinum"]
         then [(loyalty_member g ++ " Member Room Upgrade")%string] else [])
     ++ (if any_in ["executive"; "manager"; "business"]
                   (lower (profession g))
         then ["Business Executive Package"] else []))%list
  /\ (List.length upsells <= 3)%nat
  /\ (In "Business Executive Package" (map service upsells) ->
      business_orientation (lifestyle_profile analysis) = "high")
  /\ (loyalty_member g = "Diamond" ->
      ~ In "Diamond Member Room Upgrade" (map service upsells)).
Proof.
  cbv zeta.
  assert (Hmap : map service
            (_generate_contextual_upsells
               g (_perform_deep_context_analysis g) booking_result)
          = ((if any_in ["spa"; "massage"; "wellness"; "gym"; "fitness"]
                        (lower (amenities_used g))
              then ["Spa Package Addition"] else [])
             ++ (if existsb (String.eqb (loyalty_member g))
                            ["Gold"; "Platinum"]
                 then [(loyalty_member g ++ " Member Room Upgrade")%string]
                 else [])
             ++ (if any_in ["executive"; "manager"; "business"]
                           (lower (profession g))
                 then ["Business Executive Package"] else []))%list).
  { unfold _generate_contextual_upsells, append. cbv zeta.
    cbn [lifestyle_profile _perform_deep_context_analysis].
    rewrite wellness_focus_spec.
    destruct (any_in ["spa"; "massage"; "wellness"; "gym"; "fitness"]
                     (lower (amenities_used g)));
      destruct (existsb (String.eqb (loyalty_member g))
                        ["Gold"; "Platinum"]);
      destruct (any_in ["executive"; "manager"; "business"]
                       (lower (profession g)));
      reflexivity. }
  split; [exact Hmap|]. split; [|split].
  - rewrite <- (length_map service), Hmap.
    destruct (any_in ["spa"; "massage"; "wellness"; "gym"; "fitness"]
                     (lower (amenities_used g)));
      destruct (existsb (String.eqb (loyalty_member g))
                        ["Gold"; "Platinum"]);
      destruct (any_in ["executive"; "manager"; "business"]
                       (lower (profession g)));
      simpl; lia.
  - rewrite Hmap. intros H.
    cbn [lifestyle_profile _perform_deep_context_analysis].
    apply business_orientation_high.
    assert (E : any_in ["executive"; "manager"; "business"]
                       (lower (profession g)) = true).
    { destruct (any_in ["executive"; "manager"; "business"]
                       (lower (profession g))); [reflexivity|].
      exfalso. rewrite app_nil_r in H. apply in_app_or in H.
      destruct H as [H | H].
      - destruct (any_in ["spa"; "massage"; "wellness"; "gym"; "fitness"]
                         (lower (amenities_used g))); simpl in H;
          [destruct H as [H | []]; discriminate H | exact H].
      - destruct (existsb (String.eqb (loyalty_member g))
                          ["Gold"; "Platinum"]) eqn:El; simpl in H;
          [|exact H].
        destruct H as [H | []].
        simpl in El. apply orb_true_iff in El.
        destruct El as [El | El];
          [|apply orb_true_iff in El; destruct El as [El | El];
            [|discriminate El]];
          apply String.eqb_eq in El; rewrite El in H; discriminate H. }
    assert (Hi : incl ["executive"; "manager"; "business"]
                      ["executive"; "manager"; "director"; "ceo";
                       "business"])
      by (intros w [<- | [<- | [<- | []]]]; simpl; auto 10).
    exact (any_in_incl _ _ _ Hi E).
  - intros Hd. rewrite Hmap, Hd.
    change (existsb (String.eqb "Diamond") ["Gold"; "Platinum"]) with false.
    destruct (any_in ["spa"; "massage"; "wellness"; "gym"; "fitness"]
                     (lower (amenities_used g)));
      destruct (any_in ["executive"; "manager"; "business"]
                       (lower (profession g)));
      simpl; intros H;
      repeat (destruct H as [H | H]; [discriminate H|]); exact H.
Qed.
